(** * Verification of the Fuchsia Vulkan surface state machine

    A shallow embedding of shell/platform/fuchsia/flutter/vulkan_surface.cc.
    Every method of [VulkanSurface] is a computation in a small state and
    abort monad over the object's members and a chronological trace of the
    calls made to its collaborators (Zircon, sysmem, the Vulkan driver, Skia,
    the Scenic session, the async dispatcher and the completion callbacks).
    The results of those external calls are not decided by this file: every
    method takes them from an environment record, so each statement below
    holds for every behaviour of the collaborators. Tracing and logging
    touch neither the members nor those calls and are left out. *)

From Stdlib Require Import ZArith List Bool Lia.
From stdpp Require Import base list.
Import ListNotations.

Local Open Scope Z_scope.

(** ** Platform types *)

Definition zx_status_t := Z.
Definition ZX_OK : zx_status_t := 0.
Definition zx_handle_t := Z.
Definition ZX_HANDLE_INVALID : zx_handle_t := 0.
(** [ZX_EVENT_SIGNALED] is bit 3 of the Zircon signal mask. *)
Definition ZX_EVENT_SIGNALED : Z := 8.

Definition VkResult := Z.
Definition VK_SUCCESS : VkResult := 0.
Definition VkHandle := Z.

(** [status != ZX_OK] and [result != VK_SUCCESS]. *)
Definition failed (code : Z) : bool := negb (code =? 0).

(** Unsigned machine integers keep their wrap-around. *)
Definition wrap32 (x : Z) : Z := x mod 2 ^ 32.
Definition wrap64 (x : Z) : Z := x mod 2 ^ 64.

(** A [std::function<void(void)>] that is not empty is a closure, named by
    a number; the empty function is [None] wherever one is passed or kept.
    What a closure does when called is the parameter [callback_body] of the
    section below. *)
Definition Callback := nat.

(** The graphics context handed to the constructor, null when [None]. *)
Definition GrDirectContext := Z.
Definition kSkiaColorType : Z := 4.          (* kRGBA_8888_SkColorType *)

(** ** Skia *)

Record SkISize : Type := Make { fWidth : Z; fHeight : Z }.

Definition MakeEmpty : SkISize := Make 0 0.

Definition isEmpty (size : SkISize) : bool :=
  (fWidth size <=? 0) || (fHeight size <=? 0).

(** The part of an [SkSurface] this file reads: its dimensions, and whether
    [getCanvas()] gives a canvas. *)
Record SkSurface : Type := mkSkSurface {
  surface_width : Z;
  surface_height : Z;
  surface_has_canvas : bool
}.

(** [GrVkImageInfo], with its [GrVkAlloc] flattened into it. *)
Record GrVkImageInfo : Type := mkImageInfo {
  fImage : option Z;
  fAlloc_fMemory : option Z;
  fAlloc_fOffset : Z;
  fAlloc_fSize : Z;
  fAlloc_fFlags : Z;
  fImageTiling : Z;
  fImageLayout : Z;
  fFormat : Z;
  fImageUsageFlags : Z;
  fSampleCount : Z;
  fLevelCount : Z
}.

Record GrBackendRenderTarget : Type := mkRenderTarget {
  target_width : Z;
  target_height : Z;
  target_sample_count : Z;
  target_info : GrVkImageInfo
}.

(** [SkSurface::MakeFromBackendRenderTarget] belongs to Skia. It may refuse
    (null); a surface it makes has the dimensions of the render target it
    wraps. *)
Definition MakeFromBackendRenderTarget (makes has_canvas : bool)
    (target : GrBackendRenderTarget) : option SkSurface :=
  if makes
  then Some (mkSkSurface (target_width target) (target_height target)
               has_canvas)
  else None.

(** ** Vulkan structures *)

Definition kVulkanFormat : Z := 37.          (* VK_FORMAT_R8G8B8A8_UNORM *)
Definition kVulkanImageCreateFlags : Z := 0.
(** COLOR_ATTACHMENT | TRANSFER_DST | TRANSFER_SRC | SAMPLED *)
Definition kVkImageUsage : Z :=
  Z.lor (Z.lor (Z.lor 16 2) 1) 4.
Definition VK_IMAGE_TILING_OPTIMAL : Z := 0.
Definition VK_IMAGE_LAYOUT_UNDEFINED : Z := 0.

Record VkImageCreateInfo : Type := mkImageCreateInfo {
  ici_collection : option VkHandle;   (* pNext: the collection create info *)
  ici_flags : Z;
  ici_format : Z;
  ici_extent_width : Z;
  ici_extent_height : Z;
  ici_extent_depth : Z;
  ici_mipLevels : Z;
  ici_tiling : Z;
  ici_usage : Z;
  ici_initialLayout : Z
}.

Record VkMemoryRequirements : Type := mkMemoryRequirements {
  req_size : Z;
  req_alignment : Z;
  req_memoryTypeBits : Z
}.

Record VkMemoryAllocateInfo : Type := mkMemoryAllocateInfo {
  allocationSize : Z;
  memoryTypeIndex : Z
}.

Record VulkanImage : Type := mkVulkanImage {
  vk_image_create_info : VkImageCreateInfo;
  vk_memory_requirements : VkMemoryRequirements;
  vk_image : option VkHandle
}.

Definition empty_image_create_info : VkImageCreateInfo :=
  mkImageCreateInfo None 0 0 0 0 0 0 0 0 0.

Definition empty_vulkan_image : VulkanImage :=
  mkVulkanImage empty_image_create_info (mkMemoryRequirements 0 0 0) None.

(** [__builtin_ctz] on a 32-bit word: the index of its lowest set bit. The
    builtin is undefined at 0; the value given there is never used, because
    the caller checks its argument first. *)
Fixpoint ctz_pos (p : positive) : Z :=
  match p with
  | xO q => 1 + ctz_pos q
  | _ => 0
  end.

Definition builtin_ctz (bits : Z) : Z :=
  match bits with
  | Zpos p => ctz_pos p
  | _ => 0
  end.

(** ** The async wait member *)

Record WaitMethod : Type := mkWait {
  wait_object : zx_handle_t;
  wait_trigger : Z
}.

(** ** Calls made to the collaborators *)

Inductive Command : Type :=
| NewCreateImage2Cmd (image_id width height buffer_collection_id
                      buffer_collection_index : Z)
| NewReleaseResourceCmd (id : Z).

Inductive Event : Type :=
(* scenic::Session *)
| SessionRegisterBufferCollection (buffer_id : Z)
| SessionDeregisterBufferCollection (buffer_id : Z)
| SessionAllocResourceId (id : Z)
| SessionEnqueue (cmd : Command)
| SessionEnqueueAcquireFence (fence : zx_handle_t)
| SessionEnqueueReleaseFence (fence : zx_handle_t)
(* sysmem *)
| SysmemAllocateSharedCollection (status : zx_status_t)
| SysmemTokenDuplicate (status : zx_status_t)
| SysmemTokenSync (status : zx_status_t)
(* zircon events *)
| ZxEventCreate (status : zx_status_t) (created : zx_handle_t)
| ZxEventDuplicate (source : zx_handle_t) (status : zx_status_t)
                   (duplicate : zx_handle_t)
| ZxEventSignal (event : zx_handle_t) (clear_mask set_mask : Z)
                (status : zx_status_t)
(* the Vulkan driver *)
| VkCreateBufferCollection (result : VkResult) (collection : VkHandle)
| VkSetBufferCollectionConstraints (collection : option VkHandle)
                                   (info : VkImageCreateInfo)
                                   (result : VkResult)
| VkCreateImage (info : VkImageCreateInfo) (result : VkResult)
                (image : VkHandle)
| VkGetImageMemoryRequirements (image : option VkHandle)
| VkGetBufferCollectionProperties (collection : option VkHandle)
                                  (result : VkResult)
| VkAllocateMemory (info : VkMemoryAllocateInfo) (result : VkResult)
| VkBindImageMemory (image memory : option VkHandle) (result : VkResult)
| VkCreateSemaphore (result : VkResult) (semaphore : VkHandle)
| VkImportSemaphoreZirconHandle (semaphore : VkHandle)
                                (handle : zx_handle_t) (result : VkResult)
| VkDestroySemaphore (semaphore : VkHandle)
| VkCreateFence (fence : VkHandle)
| VkWaitForFences (fence : VkHandle) (result : VkResult)
| VkResetFences (fence : VkHandle) (result : VkResult)
(* Skia *)
| SkMakeSurface (target : GrBackendRenderTarget) (made : bool)
(* the async dispatcher *)
| WaitBegin
| WaitCancel
(* a completion callback is called *)
| CallbackInvoked (callback : Callback).

Record VulkanSurface : Type := mkVulkanSurface {
  valid_ : bool;
  image_id_ : Z;
  buffer_id_ : Z;
  collection_ : option VkHandle;
  vulkan_image_ : VulkanImage;
  vk_memory_ : option VkHandle;
  vk_memory_info_ : VkMemoryAllocateInfo;
  sk_surface_ : option SkSurface;
  acquire_event_ : zx_handle_t;
  release_event_ : zx_handle_t;
  acquire_semaphore_ : option VkHandle;
  command_buffer_fence_ : VkHandle;
  command_buffer_ : option VkHandle;
  wait_ : WaitMethod;
  size_history_ : list SkISize;
  size_history_index_ : Z;
  age_ : Z;
  pending_on_writes_committed_ : option Callback
}.

Definition set_valid_ (v : bool) (s : VulkanSurface) : VulkanSurface :=
  mkVulkanSurface v (image_id_ s) (buffer_id_ s) (collection_ s)
    (vulkan_image_ s) (vk_memory_ s) (vk_memory_info_ s) (sk_surface_ s)
    (acquire_event_ s) (release_event_ s) (acquire_semaphore_ s)
    (command_buffer_fence_ s) (command_buffer_ s) (wait_ s) (size_history_ s)
    (size_history_index_ s) (age_ s) (pending_on_writes_committed_ s).

Definition set_image_id_ (v : Z) (s : VulkanSurface) : VulkanSurface :=
  mkVulkanSurface (valid_ s) v (buffer_id_ s) (collection_ s)
    (vulkan_image_ s) (vk_memory_ s) (vk_memory_info_ s) (sk_surface_ s)
    (acquire_event_ s) (release_event_ s) (acquire_semaphore_ s)
    (command_buffer_fence_ s) (command_buffer_ s) (wait_ s) (size_history_ s)
    (size_history_index_ s) (age_ s) (pending_on_writes_committed_ s).

Definition set_buffer_id_ (v : Z) (s : VulkanSurface) : VulkanSurface :=
  mkVulkanSurface (valid_ s) (image_id_ s) v (collection_ s)
    (vulkan_image_ s) (vk_memory_ s) (vk_memory_info_ s) (sk_surface_ s)
    (acquire_event_ s) (release_event_ s) (acquire_semaphore_ s)
    (command_buffer_fence_ s) (command_buffer_ s) (wait_ s) (size_history_ s)
    (size_history_index_ s) (age_ s) (pending_on_writes_committed_ s).

Definition set_collection_ (v : option VkHandle) (s : VulkanSurface) : VulkanSurface :=
  mkVulkanSurface (valid_ s) (image_id_ s) (buffer_id_ s) v (vulkan_image_ s)
    (vk_memory_ s) (vk_memory_info_ s) (sk_surface_ s) (acquire_event_ s)
    (release_event_ s) (acquire_semaphore_ s) (command_buffer_fence_ s)
    (command_buffer_ s) (wait_ s) (size_history_ s) (size_history_index_ s)
    (age_ s) (pending_on_writes_committed_ s).

Definition set_vulkan_image_ (v : VulkanImage) (s : VulkanSurface) : VulkanSurface :=
  mkVulkanSurface (valid_ s) (image_id_ s) (buffer_id_ s) (collection_ s) v
    (vk_memory_ s) (vk_memory_info_ s) (sk_surface_ s) (acquire_event_ s)
    (release_event_ s) (acquire_semaphore_ s) (command_buffer_fence_ s)
    (command_buffer_ s) (wait_ s) (size_history_ s) (size_history_index_ s)
    (age_ s) (pending_on_writes_committed_ s).

Definition set_vk_memory_ (v : option VkHandle) (s : VulkanSurface) : VulkanSurface :=
  mkVulkanSurface (valid_ s) (image_id_ s) (buffer_id_ s) (collection_ s)
    (vulkan_image_ s) v (vk_memory_info_ s) (sk_surface_ s)
    (acquire_event_ s) (release_event_ s) (acquire_semaphore_ s)
    (command_buffer_fence_ s) (command_buffer_ s) (wait_ s) (size_history_ s)
    (size_history_index_ s) (age_ s) (pending_on_writes_committed_ s).

Definition set_vk_memory_info_ (v : VkMemoryAllocateInfo) (s : VulkanSurface) : VulkanSurface :=
  mkVulkanSurface (valid_ s) (image_id_ s) (buffer_id_ s) (collection_ s)
    (vulkan_image_ s) (vk_memory_ s) v (sk_surface_ s) (acquire_event_ s)
    (release_event_ s) (acquire_semaphore_ s) (command_buffer_fence_ s)
    (command_buffer_ s) (wait_ s) (size_history_ s) (size_history_index_ s)
    (age_ s) (pending_on_writes_committed_ s).

Definition set_sk_surface_ (v : option SkSurface) (s : VulkanSurface) : VulkanSurface :=
  mkVulkanSurface (valid_ s) (image_id_ s) (buffer_id_ s) (collection_ s)
    (vulkan_image_ s) (vk_memory_ s) (vk_memory_info_ s) v (acquire_event_ s)
    (release_event_ s) (acquire_semaphore_ s) (command_buffer_fence_ s)
    (command_buffer_ s) (wait_ s) (size_history_ s) (size_history_index_ s)
    (age_ s) (pending_on_writes_committed_ s).

Definition set_acquire_event_ (v : zx_handle_t) (s : VulkanSurface) : VulkanSurface :=
  mkVulkanSurface (valid_ s) (image_id_ s) (buffer_id_ s) (collection_ s)
    (vulkan_image_ s) (vk_memory_ s) (vk_memory_info_ s) (sk_surface_ s) v
    (release_event_ s) (acquire_semaphore_ s) (command_buffer_fence_ s)
    (command_buffer_ s) (wait_ s) (size_history_ s) (size_history_index_ s)
    (age_ s) (pending_on_writes_committed_ s).

Definition set_release_event_ (v : zx_handle_t) (s : VulkanSurface) : VulkanSurface :=
  mkVulkanSurface (valid_ s) (image_id_ s) (buffer_id_ s) (collection_ s)
    (vulkan_image_ s) (vk_memory_ s) (vk_memory_info_ s) (sk_surface_ s)
    (acquire_event_ s) v (acquire_semaphore_ s) (command_buffer_fence_ s)
    (command_buffer_ s) (wait_ s) (size_history_ s) (size_history_index_ s)
    (age_ s) (pending_on_writes_committed_ s).

Definition set_acquire_semaphore_ (v : option VkHandle) (s : VulkanSurface) : VulkanSurface :=
  mkVulkanSurface (valid_ s) (image_id_ s) (buffer_id_ s) (collection_ s)
    (vulkan_image_ s) (vk_memory_ s) (vk_memory_info_ s) (sk_surface_ s)
    (acquire_event_ s) (release_event_ s) v (command_buffer_fence_ s)
    (command_buffer_ s) (wait_ s) (size_history_ s) (size_history_index_ s)
    (age_ s) (pending_on_writes_committed_ s).

Definition set_command_buffer_fence_ (v : VkHandle) (s : VulkanSurface) : VulkanSurface :=
  mkVulkanSurface (valid_ s) (image_id_ s) (buffer_id_ s) (collection_ s)
    (vulkan_image_ s) (vk_memory_ s) (vk_memory_info_ s) (sk_surface_ s)
    (acquire_event_ s) (release_event_ s) (acquire_semaphore_ s) v
    (command_buffer_ s) (wait_ s) (size_history_ s) (size_history_index_ s)
    (age_ s) (pending_on_writes_committed_ s).

Definition set_command_buffer_ (v : option VkHandle) (s : VulkanSurface) : VulkanSurface :=
  mkVulkanSurface (valid_ s) (image_id_ s) (buffer_id_ s) (collection_ s)
    (vulkan_image_ s) (vk_memory_ s) (vk_memory_info_ s) (sk_surface_ s)
    (acquire_event_ s) (release_event_ s) (acquire_semaphore_ s)
    (command_buffer_fence_ s) v (wait_ s) (size_history_ s)
    (size_history_index_ s) (age_ s) (pending_on_writes_committed_ s).

Definition set_wait_ (v : WaitMethod) (s : VulkanSurface) : VulkanSurface :=
  mkVulkanSurface (valid_ s) (image_id_ s) (buffer_id_ s) (collection_ s)
    (vulkan_image_ s) (vk_memory_ s) (vk_memory_info_ s) (sk_surface_ s)
    (acquire_event_ s) (release_event_ s) (acquire_semaphore_ s)
    (command_buffer_fence_ s) (command_buffer_ s) v (size_history_ s)
    (size_history_index_ s) (age_ s) (pending_on_writes_committed_ s).

Definition set_size_history_ (v : list SkISize) (s : VulkanSurface) : VulkanSurface :=
  mkVulkanSurface (valid_ s) (image_id_ s) (buffer_id_ s) (collection_ s)
    (vulkan_image_ s) (vk_memory_ s) (vk_memory_info_ s) (sk_surface_ s)
    (acquire_event_ s) (release_event_ s) (acquire_semaphore_ s)
    (command_buffer_fence_ s) (command_buffer_ s) (wait_ s) v
    (size_history_index_ s) (age_ s) (pending_on_writes_committed_ s).

Definition set_size_history_index_ (v : Z) (s : VulkanSurface) : VulkanSurface :=
  mkVulkanSurface (valid_ s) (image_id_ s) (buffer_id_ s) (collection_ s)
    (vulkan_image_ s) (vk_memory_ s) (vk_memory_info_ s) (sk_surface_ s)
    (acquire_event_ s) (release_event_ s) (acquire_semaphore_ s)
    (command_buffer_fence_ s) (command_buffer_ s) (wait_ s) (size_history_ s)
    v (age_ s) (pending_on_writes_committed_ s).

Definition set_age_ (v : Z) (s : VulkanSurface) : VulkanSurface :=
  mkVulkanSurface (valid_ s) (image_id_ s) (buffer_id_ s) (collection_ s)
    (vulkan_image_ s) (vk_memory_ s) (vk_memory_info_ s) (sk_surface_ s)
    (acquire_event_ s) (release_event_ s) (acquire_semaphore_ s)
    (command_buffer_fence_ s) (command_buffer_ s) (wait_ s) (size_history_ s)
    (size_history_index_ s) v (pending_on_writes_committed_ s).

Definition set_pending_on_writes_committed_ (v : option Callback) (s : VulkanSurface) : VulkanSurface :=
  mkVulkanSurface (valid_ s) (image_id_ s) (buffer_id_ s) (collection_ s)
    (vulkan_image_ s) (vk_memory_ s) (vk_memory_info_ s) (sk_surface_ s)
    (acquire_event_ s) (release_event_ s) (acquire_semaphore_ s)
    (command_buffer_fence_ s) (command_buffer_ s) (wait_ s) (size_history_ s)
    (size_history_index_ s) (age_ s) v.

(** A setter computes once its object is known. *)
Arguments set_valid_ v s /.
Arguments set_image_id_ v s /.
Arguments set_buffer_id_ v s /.
Arguments set_collection_ v s /.
Arguments set_vulkan_image_ v s /.
Arguments set_vk_memory_ v s /.
Arguments set_vk_memory_info_ v s /.
Arguments set_sk_surface_ v s /.
Arguments set_acquire_event_ v s /.
Arguments set_release_event_ v s /.
Arguments set_acquire_semaphore_ v s /.
Arguments set_command_buffer_fence_ v s /.
Arguments set_command_buffer_ v s /.
Arguments set_wait_ v s /.
Arguments set_size_history_ v s /.
Arguments set_size_history_index_ v s /.
Arguments set_age_ v s /.
Arguments set_pending_on_writes_committed_ v s /.

(** Modelled from the spec: the members before the constructor body runs,
    as the class declaration initialises them (vulkan_surface.h is not among
    the sources). The spec starts a surface Uninitialized: not valid, with
    no compositor resource id and no buffer id acquired, no pending
    completion callback, and an age that counts from zero. The ring index
    is taken to start at the first slot and the history to hold empty
    sizes. *)
Definition initial_surface (history_length : Z) : VulkanSurface :=
  mkVulkanSurface false 0 0 None empty_vulkan_image None
    (mkMemoryAllocateInfo 0 0) None ZX_HANDLE_INVALID ZX_HANDLE_INVALID
    None 0 None (mkWait ZX_HANDLE_INVALID 0)
    (replicate (Z.to_nat history_length) MakeEmpty) 0 0 None.

(** ** The state and abort monad *)

Record Machine : Type := mkMachine {
  self : VulkanSurface;
  trace : list Event
}.

(** Why a run stopped: a debug check ([FML_DCHECK]), the double
    registration check of [SignalWritesFinished], or undefined behaviour
    that the source never guards against (a null [sk_surface_] read, an
    index outside the size history). *)
Inductive Failure : Type :=
| DCheckFailed
| DoubleRegistration
| NullDereference
| IndexOutOfRange.

(** A fatal stop keeps the machine as it was at that instant. *)
Inductive Outcome (A : Type) : Type :=
| Done (result : A) (after : Machine)
| Fatal (why : Failure) (at_stop : Machine).

Arguments Done {A} result after.
Arguments Fatal {A} why at_stop.

Definition M (A : Type) : Type := Machine -> Outcome A.

Definition ret {A : Type} (a : A) : M A := fun m => Done a m.

Definition bind {A B : Type} (c : M A) (k : A -> M B) : M B :=
  fun m =>
    match c m with
    | Done a m' => k a m'
    | Fatal why m' => Fatal why m'
    end.

Notation "x <- c ;; k" := (bind c (fun x => k))
  (at level 100, c at next level, right associativity).
Notation "c ;; k" := (bind c (fun _ => k))
  (at level 100, right associativity).

Definition read {A : Type} (field : VulkanSurface -> A) : M A :=
  fun m => Done (field (self m)) m.

Definition update (f : VulkanSurface -> VulkanSurface) : M unit :=
  fun m => Done tt (mkMachine (f (self m)) (trace m)).

Definition emit (e : Event) : M unit :=
  fun m => Done tt (mkMachine (self m) (trace m ++ [e])).

Definition abort {A : Type} (why : Failure) : M A :=
  fun m => Fatal why m.

(** Modelled from the spec: [FML_DCHECK] (flutter/fml/logging.h, not among
    the sources) is the fatal assertion of the spec: the run stops when the
    condition is false. *)
Definition FML_DCHECK (condition : bool) : M unit :=
  if condition then ret tt else abort DCheckFailed.

(** Modelled from the spec: [dart_utils::Check]
    (runtime/dart/utils/inlines.h, not among the sources) is the
    unconditional fatal assertion of the spec. Its one use here is the
    double registration check. *)
Definition Check (condition : bool) : M unit :=
  if condition then ret tt else abort DoubleRegistration.

(** An external call: it is recorded, and its result is the one the
    environment gives. *)
Definition call {A : Type} (e : Event) (result : A) : M A :=
  emit e ;; ret result.

(** ** What the collaborators answer

    One record per method: the result of every external call the method can
    make, in the order of the source. *)

Record SemaphoreEnv : Type := mkSemaphoreEnv {
  sem_duplicate_status : zx_status_t;
  sem_duplicate : zx_handle_t;
  sem_create_result : VkResult;
  sem_created : VkHandle;
  sem_import_result : VkResult
}.

Record ResetEnv : Type := mkResetEnv {
  reset_acquire_signal : zx_status_t;
  reset_release_signal : zx_status_t;
  reset_wait_for_fences : VkResult;
  reset_reset_fences : VkResult;
  reset_semaphore : SemaphoreEnv
}.

Record FlushEnv : Type := mkFlushEnv {
  flush_acquire_status : zx_status_t;
  flush_acquire : zx_handle_t;
  flush_release_status : zx_status_t;
  flush_release : zx_handle_t
}.

Record FencesEnv : Type := mkFencesEnv {
  fences_acquire_status : zx_status_t;
  fences_acquire_event : zx_handle_t;
  fences_semaphore : SemaphoreEnv;
  fences_release_status : zx_status_t;
  fences_release_event : zx_handle_t;
  fences_command_buffer_fence : VkHandle
}.

Record ImageEnv : Type := mkImageEnv {
  image_constraints_result : VkResult;
  image_create_result : VkResult;
  image_created : VkHandle;
  image_requirements : VkMemoryRequirements
}.

Record AllocEnv : Type := mkAllocEnv {
  alloc_collection_status : zx_status_t;
  alloc_duplicate_status : zx_status_t;
  alloc_sync_status : zx_status_t;
  alloc_import_result : VkResult;
  alloc_collection : VkHandle;
  alloc_image : ImageEnv;
  alloc_properties_result : VkResult;
  alloc_properties_memoryTypeBits : Z;
  alloc_memory_result : VkResult;
  alloc_memory : VkHandle;
  alloc_bind_result : VkResult;
  alloc_skia_makes_surface : bool;
  alloc_skia_has_canvas : bool
}.

Record CtorEnv : Type := mkCtorEnv {
  ctor_alloc : AllocEnv;
  ctor_fences : FencesEnv;
  ctor_resource_id : Z;
  ctor_reset : ResetEnv
}.

(** Modelled from the spec: [vulkan::VulkanHandle] (vulkan/vulkan_handle.h,
    not among the sources) owns a driver handle together with its release
    function. Giving it a new value, or resetting it, releases the handle
    it held; for the acquire semaphore that is the spec's destruction of the
    prior semaphore in every reset cycle. *)
Definition dispose_acquire_semaphore : M unit :=
  held <- read acquire_semaphore_ ;;
  match held with
  | Some semaphore =>
      emit (VkDestroySemaphore semaphore) ;;
      update (set_acquire_semaphore_ None)
  | None => ret tt
  end.

Definition assign_acquire_semaphore (fresh : option VkHandle) : M unit :=
  dispose_acquire_semaphore ;;
  update (set_acquire_semaphore_ fresh).

(** ** The methods of [VulkanSurface] *)

Section Surface.

(** [kSizeHistorySize], the length of the size history, is declared in
    vulkan_surface.h, which is not among the sources. *)
Variable kSizeHistorySize : Z.

(** What each completion callback does when it is called. A callback is
    code of the caller: it may call back into the surface, so it is any
    computation over the machine. *)
Variable callback_body : Callback -> M unit.

Definition invoke (callback : Callback) : M unit :=
  emit (CallbackInvoked callback) ;;
  callback_body callback.

Definition CreateVulkanImage (env : ImageEnv) (size : SkISize)
    : M (bool * VulkanImage) :=
  FML_DCHECK (negb (isEmpty size)) ;;
  collection <- read collection_ ;;
  let info :=
    mkImageCreateInfo collection kVulkanImageCreateFlags kVulkanFormat
      (wrap32 (fWidth size)) (wrap32 (fHeight size)) 1 1
      VK_IMAGE_TILING_OPTIMAL kVkImageUsage VK_IMAGE_LAYOUT_UNDEFINED in
  let out := mkVulkanImage info (mkMemoryRequirements 0 0 0) None in
  result <- call (VkSetBufferCollectionConstraints collection info
                    (image_constraints_result env))
                 (image_constraints_result env) ;;
  if failed result then ret (false, out) else
  result <- call (VkCreateImage info (image_create_result env)
                    (image_created env))
                 (image_create_result env) ;;
  if failed result then ret (false, out) else
  let vk_image := Some (image_created env) in
  emit (VkGetImageMemoryRequirements vk_image) ;;
  ret (true, mkVulkanImage info (image_requirements env) vk_image).

Definition SetupSkiaSurface (makes has_canvas : bool)
    (context : option GrDirectContext) (size : SkISize) (color_type : Z)
    (image_create_info : VkImageCreateInfo)
    (memory_reqs : VkMemoryRequirements) : M bool :=
  match context with
  | None => ret false
  | Some _ =>
      vk_memory <- read vk_memory_ ;;
      vulkan_image <- read vulkan_image_ ;;
      let image_info :=
        mkImageInfo (vk_image vulkan_image) vk_memory 0
          (req_size memory_reqs) 0 (ici_tiling image_create_info)
          (ici_initialLayout image_create_info)
          (ici_format image_create_info) (ici_usage image_create_info) 1
          (ici_mipLevels image_create_info) in
      let sk_render_target :=
        mkRenderTarget (fWidth size) (fHeight size) 0 image_info in
      sk_surface <- call (SkMakeSurface sk_render_target makes)
                      (MakeFromBackendRenderTarget makes has_canvas
                         sk_render_target) ;;
      match sk_surface with
      | None => ret false
      | Some surface =>
          if negb (surface_has_canvas surface) then ret false else
          update (set_sk_surface_ (Some surface)) ;;
          ret true
      end
  end.

Definition AllocateDeviceMemory (env : AllocEnv)
    (context : option GrDirectContext) (size : SkISize) (buffer_id : Z)
    : M bool :=
  if isEmpty size then ret false else
  status <- call (SysmemAllocateSharedCollection
                    (alloc_collection_status env))
                 (alloc_collection_status env) ;;
  if failed status then ret false else
  status <- call (SysmemTokenDuplicate (alloc_duplicate_status env))
                 (alloc_duplicate_status env) ;;
  if failed status then ret false else
  status <- call (SysmemTokenSync (alloc_sync_status env))
                 (alloc_sync_status env) ;;
  if failed status then ret false else
  emit (SessionRegisterBufferCollection buffer_id) ;;
  update (set_buffer_id_ buffer_id) ;;
  result <- call (VkCreateBufferCollection (alloc_import_result env)
                    (alloc_collection env))
                 (alloc_import_result env) ;;
  if failed result then ret false else
  update (set_collection_ (Some (alloc_collection env))) ;;
  created <- CreateVulkanImage (alloc_image env) size ;;
  if negb (fst created) then ret false else
  update (set_vulkan_image_ (snd created)) ;;
  memory_requirements <-
    read (fun s => vk_memory_requirements (vulkan_image_ s)) ;;
  image_create_info <-
    read (fun s => vk_image_create_info (vulkan_image_ s)) ;;
  collection <- read collection_ ;;
  result <- call (VkGetBufferCollectionProperties collection
                    (alloc_properties_result env))
                 (alloc_properties_result env) ;;
  if failed result then ret false else
  let bits :=
    Z.land (req_memoryTypeBits memory_requirements)
           (alloc_properties_memoryTypeBits env) in
  FML_DCHECK (negb (bits =? 0)) ;;
  let allocation_info :=
    mkMemoryAllocateInfo (req_size memory_requirements)
                         (wrap32 (builtin_ctz bits)) in
  result <- call (VkAllocateMemory allocation_info
                    (alloc_memory_result env))
                 (alloc_memory_result env) ;;
  if failed result then ret false else
  update (set_vk_memory_ (Some (alloc_memory env))) ;;
  update (set_vk_memory_info_ allocation_info) ;;
  image <- read (fun s => vk_image (vulkan_image_ s)) ;;
  vk_memory <- read vk_memory_ ;;
  result <- call (VkBindImageMemory image vk_memory
                    (alloc_bind_result env))
                 (alloc_bind_result env) ;;
  if failed result then ret false else
  SetupSkiaSurface (alloc_skia_makes_surface env)
    (alloc_skia_has_canvas env) context size kSkiaColorType
    image_create_info memory_requirements.

Definition SemaphoreFromEvent (env : SemaphoreEnv) (event : zx_handle_t)
    : M (option VkHandle) :=
  status <- call (ZxEventDuplicate event (sem_duplicate_status env)
                    (sem_duplicate env))
                 (sem_duplicate_status env) ;;
  if failed status then ret None else
  result <- call (VkCreateSemaphore (sem_create_result env)
                    (sem_created env))
                 (sem_create_result env) ;;
  if failed result then ret None else
  result <- call (VkImportSemaphoreZirconHandle (sem_created env)
                    (wrap32 (sem_duplicate env)) (sem_import_result env))
                 (sem_import_result env) ;;
  if failed result then ret None else
  ret (Some (sem_created env)).

Definition CreateFences (env : FencesEnv) : M bool :=
  status <- call (ZxEventCreate (fences_acquire_status env)
                    (fences_acquire_event env))
                 (fences_acquire_status env) ;;
  if failed status then ret false else
  update (set_acquire_event_ (fences_acquire_event env)) ;;
  acquire_event <- read acquire_event_ ;;
  semaphore <- SemaphoreFromEvent (fences_semaphore env) acquire_event ;;
  assign_acquire_semaphore semaphore ;;
  acquire_semaphore <- read acquire_semaphore_ ;;
  match acquire_semaphore with
  | None => ret false
  | Some _ =>
      status <- call (ZxEventCreate (fences_release_status env)
                        (fences_release_event env))
                     (fences_release_status env) ;;
      if failed status then ret false else
      update (set_release_event_ (fences_release_event env)) ;;
      fence <- call (VkCreateFence (fences_command_buffer_fence env))
                 (fences_command_buffer_fence env) ;;
      update (set_command_buffer_fence_ fence) ;;
      ret true
  end.

(** [session->AllocResourceId()] answers [fresh_id]. *)
Definition PushSessionImageSetupOps (fresh_id : Z) : M unit :=
  image_id <- read image_id_ ;;
  (if image_id =? 0
   then id <- call (SessionAllocResourceId fresh_id) fresh_id ;;
        update (set_image_id_ id)
   else ret tt) ;;
  sk_surface <- read sk_surface_ ;;
  match sk_surface with
  | None => abort NullDereference
  | Some surface =>
      image_id <- read image_id_ ;;
      buffer_id <- read buffer_id_ ;;
      emit (SessionEnqueue
              (NewCreateImage2Cmd image_id (surface_width surface)
                 (surface_height surface) buffer_id 0))
  end.

Definition GetImageId : M Z := read image_id_.

Definition IsValid : M bool := read valid_.

Definition GetSize : M SkISize :=
  valid <- read valid_ ;;
  if negb valid then ret (Make 0 0) else
  sk_surface <- read sk_surface_ ;;
  match sk_surface with
  | None => abort NullDereference
  | Some surface =>
      ret (Make (surface_width surface) (surface_height surface))
  end.

Definition GetSkiaSurface : M (option SkSurface) :=
  valid <- read valid_ ;;
  if valid then read sk_surface_ else ret None.

(** [size_history_] is a [std::array] of [kSizeHistorySize] sizes: writing
    outside it is undefined. The remainder is that of C++, which truncates
    towards zero. *)
Definition AdvanceAndGetAge : M Z :=
  size <- GetSize ;;
  index <- read size_history_index_ ;;
  (if (index <? 0) || (kSizeHistorySize <=? index)
   then abort IndexOutOfRange
   else update (fun s => set_size_history_
                           (<[Z.to_nat index := size]> (size_history_ s))
                           s)) ;;
  update (fun s => set_size_history_index_
                     (Z.rem (size_history_index_ s + 1) kSizeHistorySize)
                     s) ;;
  update (fun s => set_age_ (wrap64 (age_ s + 1)) s) ;;
  read age_.

Definition FlushSessionAcquireAndReleaseEvents (env : FlushEnv) : M bool :=
  acquire_event <- read acquire_event_ ;;
  status <- call (ZxEventDuplicate acquire_event
                    (flush_acquire_status env) (flush_acquire env))
                 (flush_acquire_status env) ;;
  not_duplicated <-
    (if failed status then ret true else
     release_event <- read release_event_ ;;
     status <- call (ZxEventDuplicate release_event
                       (flush_release_status env) (flush_release env))
                    (flush_release_status env) ;;
     ret (failed status)) ;;
  if not_duplicated then ret false else
  emit (SessionEnqueueAcquireFence (flush_acquire env)) ;;
  emit (SessionEnqueueReleaseFence (flush_release env)) ;;
  update (set_age_ 0) ;;
  ret true.

Definition SignalWritesFinished (on_writes_committed : option Callback)
    : M unit :=
  match on_writes_committed with
  | None => FML_DCHECK false
  | Some callback =>
      FML_DCHECK true ;;
      valid <- read valid_ ;;
      if negb valid then invoke callback else
      pending <- read pending_on_writes_committed_ ;;
      Check (match pending with None => true | Some _ => false end) ;;
      update (set_pending_on_writes_committed_ (Some callback))
  end.

Definition Reset (env : ResetEnv) : M unit :=
  acquire_event <- read acquire_event_ ;;
  status <- call (ZxEventSignal acquire_event ZX_EVENT_SIGNALED 0
                    (reset_acquire_signal env))
                 (reset_acquire_signal env) ;;
  not_rearmed <-
    (if failed status then ret true else
     release_event <- read release_event_ ;;
     status <- call (ZxEventSignal release_event ZX_EVENT_SIGNALED 0
                       (reset_release_signal env))
                    (reset_release_signal env) ;;
     ret (failed status)) ;;
  (if not_rearmed then update (set_valid_ false) else ret tt) ;;
  fence <- read command_buffer_fence_ ;;
  command_buffer <- read command_buffer_ ;;
  match command_buffer with
  | Some _ =>
      emit (VkWaitForFences fence (reset_wait_for_fences env)) ;;
      update (set_command_buffer_ None)
  | None => ret tt
  end ;;
  emit (VkResetFences fence (reset_reset_fences env)) ;;
  dispose_acquire_semaphore ;;
  acquire_event <- read acquire_event_ ;;
  semaphore <- SemaphoreFromEvent (reset_semaphore env) acquire_event ;;
  assign_acquire_semaphore semaphore ;;
  emit WaitBegin ;;
  callback <- read pending_on_writes_committed_ ;;
  update (set_pending_on_writes_committed_ None) ;;
  match callback with
  | Some committed => invoke committed
  | None => ret tt
  end.

Definition OnHandleReady (status : zx_status_t) (observed : Z)
    (env : ResetEnv) : M unit :=
  if failed status then ret tt else
  FML_DCHECK (negb (Z.land observed ZX_EVENT_SIGNALED =? 0)) ;;
  Reset env.

(** The constructor body. The session pointer is checked here and never
    reassigned: the trace is that of this one session. *)
Definition VulkanSurface_ctor (env : CtorEnv)
    (context : option GrDirectContext) (session : option Z)
    (size : SkISize) (buffer_id : Z) : M unit :=
  FML_DCHECK (match session with Some _ => true | None => false end) ;;
  allocated <- AllocateDeviceMemory (ctor_alloc env) context size
                 buffer_id ;;
  if negb allocated then ret tt else
  fenced <- CreateFences (ctor_fences env) ;;
  if negb fenced then ret tt else
  PushSessionImageSetupOps (ctor_resource_id env) ;;
  update (fun s => set_size_history_
                     (replicate (length (size_history_ s)) MakeEmpty) s) ;;
  release_event <- read release_event_ ;;
  update (fun s => set_wait_ (mkWait release_event (wait_trigger (wait_ s)))
                     s) ;;
  update (fun s => set_wait_ (mkWait (wait_object (wait_ s))
                                ZX_EVENT_SIGNALED) s) ;;
  Reset (ctor_reset env) ;;
  update (set_valid_ true).

(** The destructor body; the members release what they own after it. *)
Definition VulkanSurface_dtor : M unit :=
  image_id <- read image_id_ ;;
  (if negb (image_id =? 0)
   then emit (SessionEnqueue (NewReleaseResourceCmd image_id))
   else ret tt) ;;
  buffer_id <- read buffer_id_ ;;
  (if negb (buffer_id =? 0)
   then emit (SessionDeregisterBufferCollection buffer_id)
   else ret tt) ;;
  emit WaitCancel ;;
  update (fun s => set_wait_ (mkWait ZX_HANDLE_INVALID
                                (wait_trigger (wait_ s))) s).

(** A new object: the members as the class declares them, then the
    constructor body. *)
Definition new_VulkanSurface (env : CtorEnv)
    (context : option GrDirectContext) (session : option Z)
    (size : SkISize) (buffer_id : Z) (before : list Event)
    : Outcome unit :=
  VulkanSurface_ctor env context session size buffer_id
    (mkMachine (initial_surface kSizeHistorySize) before).

End Surface.

(** ** Vocabulary of the statements *)

(** The completion callbacks called along a trace, in order. *)
Fixpoint invocations (events : list Event) : list Callback :=
  match events with
  | [] => []
  | CallbackInvoked callback :: rest => callback :: invocations rest
  | _ :: rest => invocations rest
  end.

(** The calls a trace makes to the Scenic session, in order. *)
Definition is_session_call (e : Event) : bool :=
  match e with
  | SessionRegisterBufferCollection _
  | SessionDeregisterBufferCollection _
  | SessionAllocResourceId _
  | SessionEnqueue _
  | SessionEnqueueAcquireFence _
  | SessionEnqueueReleaseFence _ => true
  | _ => false
  end.

Definition session_calls (events : list Event) : list Event :=
  List.filter is_session_call events.

(** The memory types the driver was asked to allocate from. *)
Fixpoint allocated_memory_types (events : list Event) : list Z :=
  match events with
  | [] => []
  | VkAllocateMemory info _ :: rest =>
      memoryTypeIndex info :: allocated_memory_types rest
  | _ :: rest => allocated_memory_types rest
  end.

(** The machine a run ends with, returned or stopped. *)
Definition final {A : Type} (o : Outcome A) : Machine :=
  match o with
  | Done _ m => m
  | Fatal _ m => m
  end.

(** Callbacks that do nothing: with them a method shows its own steps. *)
Definition no_effect : Callback -> M unit := fun _ => ret tt.

(** What the source relies on without checking: the ring index is inside
    the size history, the history has its declared length, a valid surface
    has its Skia surface, and the age is a [size_t]. *)
Definition consistent (history_length : Z) (s : VulkanSurface) : bool :=
  (0 <=? size_history_index_ s)
  && (size_history_index_ s <? history_length)
  && (Z.of_nat (length (size_history_ s)) =? history_length)
  && (implb (valid_ s)
        (match sk_surface_ s with Some _ => true | None => false end))
  && (0 <=? age_ s) && (age_ s <? 2 ^ 64).

(** The surface as its users drive it: the public methods, and the
    dispatcher delivering the release signal. *)
Inductive Call : Type :=
| CallIsValid
| CallGetSize
| CallGetImageId
| CallGetSkiaSurface
| CallAdvanceAndGetAge
| CallFlushSessionAcquireAndReleaseEvents (env : FlushEnv)
| CallSignalWritesFinished (on_writes_committed : option Callback)
| CallOnHandleReady (status : zx_status_t) (observed : Z) (env : ResetEnv).

Definition perform (history_length : Z) (body : Callback -> M unit)
    (c : Call) : M unit :=
  match c with
  | CallIsValid => IsValid ;; ret tt
  | CallGetSize => GetSize ;; ret tt
  | CallGetImageId => GetImageId ;; ret tt
  | CallGetSkiaSurface => GetSkiaSurface ;; ret tt
  | CallAdvanceAndGetAge => AdvanceAndGetAge history_length ;; ret tt
  | CallFlushSessionAcquireAndReleaseEvents env =>
      FlushSessionAcquireAndReleaseEvents env ;; ret tt
  | CallSignalWritesFinished on_writes_committed =>
      SignalWritesFinished body on_writes_committed
  | CallOnHandleReady status observed env =>
      OnHandleReady body status observed env
  end.

Fixpoint perform_all (history_length : Z) (body : Callback -> M unit)
    (calls : list Call) : M unit :=
  match calls with
  | [] => ret tt
  | c :: rest =>
      perform history_length body c ;;
      perform_all history_length body rest
  end.

(** [sk_surface_] is private and written by [SetupSkiaSurface] only, which
    only the constructor reaches: no method run afterwards changes it, as
    long as the callbacks, which have no access to it, leave it alone. *)
Definition keeps_surface (body : Callback -> M unit) : Prop :=
  forall callback m after,
    body callback m = Done tt after ->
    sk_surface_ (self after) = sk_surface_ (self m).

(** The same for the ring bookkeeping. *)
Definition keeps_consistent (history_length : Z) (body : Callback -> M unit)
    : Prop :=
  forall callback m after,
    consistent history_length (self m) = true ->
    body callback m = Done tt after ->
    consistent history_length (self after) = true.

(** ** A concrete run

    Collaborators that never fail, a history of three sizes, a 640 by 480
    surface: the inputs at which the statements below are exercised. The
    driver accepts memory types 1 and 2, the collection types 2 and 3. *)

Definition sample_size : SkISize := Make 640 480.

Definition sample_semaphore_env : SemaphoreEnv :=
  mkSemaphoreEnv ZX_OK 11 VK_SUCCESS 21 VK_SUCCESS.

Definition sample_reset_env : ResetEnv :=
  mkResetEnv ZX_OK ZX_OK VK_SUCCESS VK_SUCCESS sample_semaphore_env.

Definition sample_flush_env : FlushEnv := mkFlushEnv ZX_OK 31 ZX_OK 32.

Definition sample_fences_env : FencesEnv :=
  mkFencesEnv ZX_OK 41 sample_semaphore_env ZX_OK 42 43.

Definition sample_image_env : ImageEnv :=
  mkImageEnv VK_SUCCESS VK_SUCCESS 51 (mkMemoryRequirements 1228800 4096 6).

Definition sample_alloc_env : AllocEnv :=
  mkAllocEnv ZX_OK ZX_OK ZX_OK VK_SUCCESS 61 sample_image_env VK_SUCCESS 12
    VK_SUCCESS 62 VK_SUCCESS true true.

Definition sample_ctor_env : CtorEnv :=
  mkCtorEnv sample_alloc_env sample_fences_env 1 sample_reset_env.

Definition sample_start : Machine := mkMachine (initial_surface 3) [].

Definition sample_surface : Machine :=
  final (new_VulkanSurface 3 no_effect sample_ctor_env (Some 1) (Some 1)
           sample_size 7 []).

Definition sample_calls : list Call :=
  [CallAdvanceAndGetAge;
   CallSignalWritesFinished (Some 5%nat);
   CallFlushSessionAcquireAndReleaseEvents sample_flush_env;
   CallOnHandleReady ZX_OK ZX_EVENT_SIGNALED sample_reset_env;
   CallGetSize].

Definition sample_used : Machine :=
  final (perform_all 3 no_effect sample_calls sample_surface).

Definition sample_flushed : Machine :=
  final (FlushSessionAcquireAndReleaseEvents sample_flush_env sample_surface).

(** The same surface after its fences failed to re-arm: not valid. *)
Definition sample_invalid : Machine :=
  final (Reset no_effect
           (mkResetEnv 1 ZX_OK VK_SUCCESS VK_SUCCESS sample_semaphore_env)
           sample_surface).

(** ** More vocabulary *)

(** The fences waited on and the semaphores destroyed along a trace. *)
Fixpoint fence_waits (events : list Event) : list VkHandle :=
  match events with
  | [] => []
  | VkWaitForFences fence _ :: rest => fence :: fence_waits rest
  | _ :: rest => fence_waits rest
  end.

Fixpoint destroyed_semaphores (events : list Event) : list VkHandle :=
  match events with
  | [] => []
  | VkDestroySemaphore semaphore :: rest =>
      semaphore :: destroyed_semaphores rest
  | _ :: rest => destroyed_semaphores rest
  end.

(** How often a trace arms the wait on the release event. *)
Fixpoint wait_arms (events : list Event) : nat :=
  match events with
  | [] => 0%nat
  | WaitBegin :: rest => S (wait_arms rest)
  | _ :: rest => wait_arms rest
  end.

(** What [SemaphoreFromEvent] returns under [env]. *)
Definition semaphore_made (env : SemaphoreEnv) : bool :=
  negb (failed (sem_duplicate_status env))
  && negb (failed (sem_create_result env))
  && negb (failed (sem_import_result env)).

(** Callbacks cannot write [valid_], [image_id_] or [buffer_id_]: the
    members are private, and no public method makes an invalid surface
    valid or changes an id. *)
Definition never_revives (body : Callback -> M unit) : Prop :=
  forall callback m after,
    body callback m = Done tt after ->
    valid_ (self m) = false ->
    valid_ (self after) = false.

Definition keeps_ids (body : Callback -> M unit) : Prop :=
  forall callback m after,
    body callback m = Done tt after ->
    image_id_ (self after) = image_id_ (self m)
    /\ buffer_id_ (self after) = buffer_id_ (self m).

(** A callback that calls back into the surface: it asks for its size and
    advances its age. *)
Definition sample_reentrant (history_length : Z) : Callback -> M unit :=
  fun _ =>
    GetSize ;;
    AdvanceAndGetAge history_length ;;
    ret tt.

Definition sample_invalid_used : Machine :=
  final (perform_all 3 no_effect sample_calls sample_invalid).

Definition sample_reentrant_used : Machine :=
  final (perform_all 3 (sample_reentrant 3) sample_calls sample_surface).

Definition sample_allocated : Machine :=
  final (AllocateDeviceMemory sample_alloc_env (Some 1) sample_size 7
           sample_start).

(** A construction in which both ids are zero: the caller passes buffer id
    zero and the session hands out resource id zero. *)
Definition sample_zero_env : CtorEnv :=
  mkCtorEnv sample_alloc_env sample_fences_env 0 sample_reset_env.

Definition sample_zero_ids : Machine :=
  final (new_VulkanSurface 3 no_effect sample_zero_env (Some 1) (Some 1)
           sample_size 0 []).

(** * Properties *)

(** ** Running the monad *)

Ltac run :=
  unfold FML_DCHECK, Check, call in *;
  unfold bind, emit, update, read, ret, abort in *;
  cbn [self trace] in *.

Lemma invocations_app (l1 l2 : list Event) :
  invocations (l1 ++ l2) = invocations l1 ++ invocations l2.
Proof.
  induction l1 as [|e l1 IH]; [reflexivity|].
  destruct e; cbn; rewrite ?IH; reflexivity.
Qed.

Lemma allocated_memory_types_app (l1 l2 : list Event) :
  allocated_memory_types (l1 ++ l2) =
  allocated_memory_types l1 ++ allocated_memory_types l2.
Proof.
  induction l1 as [|e l1 IH]; [reflexivity|].
  destruct e; cbn; rewrite ?IH; reflexivity.
Qed.

Lemma bind_Done {A B : Type} (c : M A) (k : A -> M B) m b m' :
  bind c k m = Done b m' ->
  exists a m1, c m = Done a m1 /\ k a m1 = Done b m'.
Proof.
  unfold bind. destruct (c m) as [a m1|why m1]; [|discriminate].
  intros H. exists a, m1. split; [reflexivity|exact H].
Qed.

Lemma session_calls_app (l1 l2 : list Event) :
  session_calls (l1 ++ l2) = session_calls l1 ++ session_calls l2.
Proof. apply List.filter_app. Qed.

(** ** FlushSessionAcquireAndReleaseEvents *)

Lemma flush_runs (env : FlushEnv) (m : Machine) :
  let acquire_dup :=
    ZxEventDuplicate (acquire_event_ (self m)) (flush_acquire_status env)
      (flush_acquire env) in
  let release_dup :=
    ZxEventDuplicate (release_event_ (self m)) (flush_release_status env)
      (flush_release env) in
  FlushSessionAcquireAndReleaseEvents env m =
  if failed (flush_acquire_status env)
  then Done false (mkMachine (self m) (trace m ++ [acquire_dup]))
  else if failed (flush_release_status env)
  then Done false (mkMachine (self m) (trace m ++ [acquire_dup; release_dup]))
  else Done true
         (mkMachine (set_age_ 0 (self m))
            (trace m ++ [acquire_dup; release_dup;
                         SessionEnqueueAcquireFence (flush_acquire env);
                         SessionEnqueueReleaseFence (flush_release env)])).
Proof.
  destruct m as [s tr]. unfold FlushSessionAcquireAndReleaseEvents. run.
  destruct (failed (flush_acquire_status env)); cbn; [reflexivity|].
  destruct (failed (flush_release_status env)); cbn;
    rewrite <- ?app_assoc; reflexivity.
Qed.


(** ** AdvanceAndGetAge *)

Lemma GetSize_runs (m : Machine) :
  GetSize m =
  if valid_ (self m)
  then match sk_surface_ (self m) with
       | Some surface =>
           Done (Make (surface_width surface) (surface_height surface))
             m
       | None => Fatal NullDereference m
       end
  else Done (Make 0 0) m.
Proof.
  unfold GetSize. run. destruct (valid_ (self m)); cbn; [|reflexivity].
  destruct (sk_surface_ (self m)); reflexivity.
Qed.

Lemma consistent_facts (k : Z) (s : VulkanSurface) :
  consistent k s = true ->
  0 <= size_history_index_ s < k
  /\ Z.of_nat (length (size_history_ s)) = k
  /\ (valid_ s = true -> sk_surface_ s <> None)
  /\ 0 <= age_ s < 2 ^ 64.
Proof.
  unfold consistent. rewrite !andb_true_iff.
  intros [[[[[H1 H2] H3] H4] H5] H6].
  repeat split; try lia.
  intros Hv. rewrite Hv in H4. destruct (sk_surface_ s); [discriminate|].
  discriminate H4.
Qed.

Lemma GetSize_consistent (k : Z) (m : Machine) :
  consistent k (self m) = true ->
  exists size, GetSize m = Done size m.
Proof.
  intros H. apply consistent_facts in H. destruct H as (_ & _ & Hs & _).
  rewrite GetSize_runs. destruct (valid_ (self m)); [|eauto].
  destruct (sk_surface_ (self m)); [eauto|]. exfalso. apply Hs; reflexivity.
Qed.

Lemma advance_runs (k : Z) (m : Machine) (size : SkISize) :
  0 <= size_history_index_ (self m) < k ->
  GetSize m = Done size m ->
  AdvanceAndGetAge k m =
  Done (wrap64 (age_ (self m) + 1))
    (mkMachine
       (set_age_ (wrap64 (age_ (self m) + 1))
          (set_size_history_index_
             ((size_history_index_ (self m) + 1) mod k)
             (set_size_history_
                (<[Z.to_nat (size_history_index_ (self m)) := size]>
                   (size_history_ (self m)))
                (self m))))
       (trace m)).
Proof.
  intros Hi Hs. unfold AdvanceAndGetAge.
  unfold bind at 1. rewrite Hs. run.
  replace ((size_history_index_ (self m) <? 0)
           || (k <=? size_history_index_ (self m))) with false
    by (symmetry; apply orb_false_iff; split; lia).
  cbn. rewrite Z.rem_mod_nonneg by lia. reflexivity.
Qed.

Lemma consistent_intro (k : Z) (s : VulkanSurface) :
  0 <= size_history_index_ s < k ->
  Z.of_nat (length (size_history_ s)) = k ->
  (valid_ s = true -> sk_surface_ s <> None) ->
  0 <= age_ s < 2 ^ 64 ->
  consistent k s = true.
Proof.
  intros Hi Hl Hs Ha. unfold consistent. rewrite !andb_true_iff.
  repeat split; try lia.
  destruct (valid_ s); [|reflexivity].
  destruct (sk_surface_ s); [reflexivity|]. exfalso. apply Hs; reflexivity.
Qed.

Lemma advance_consistent (k : Z) (m : Machine) :
  consistent k (self m) = true ->
  exists after,
    AdvanceAndGetAge k m = Done (wrap64 (age_ (self m) + 1)) after
    /\ age_ (self after) = wrap64 (age_ (self m) + 1)
    /\ consistent k (self after) = true.
Proof.
  intros Hc. destruct (GetSize_consistent k m Hc) as [size Hs].
  destruct (consistent_facts k _ Hc) as (Hi & Hl & Hv & Ha).
  rewrite (advance_runs k m size Hi Hs).
  eexists; split; [reflexivity|]. split; [reflexivity|].
  apply consistent_intro; cbn.
  - apply Z.mod_pos_bound; lia.
  - rewrite length_insert. exact Hl.
  - exact Hv.
  - unfold wrap64. apply Z.mod_pos_bound; lia.
Qed.

Lemma flush_consistent (k : Z) (env : FlushEnv) (m after : Machine) :
  consistent k (self m) = true ->
  FlushSessionAcquireAndReleaseEvents env m = Done true after ->
  consistent k (self after) = true /\ age_ (self after) = 0.
Proof.
  intros Hc. rewrite flush_runs. cbv zeta.
  destruct (failed (flush_acquire_status env)); [discriminate|].
  destruct (failed (flush_release_status env)); [discriminate|].
  intros H. inversion H; subst; clear H. cbn. split; [|reflexivity].
  destruct (consistent_facts k _ Hc) as (Hi & Hl & Hv & Ha).
  apply consistent_intro; cbn; auto. lia.
Qed.

(** C3. On a surface whose ring index lies inside the size history,
    [AdvanceAndGetAge] writes the current size (what [GetSize] returns) into
    the history at the ring index, moves the index one slot on modulo
    [kSizeHistorySize], adds one to the age (a [size_t]) and returns the new
    age, touching nothing else. Hence the call that follows a successful
    [FlushSessionAcquireAndReleaseEvents] returns 1, and three calls in a
    row after it return 1, 2 and 3. *)
Theorem advance_records_size_and_ages (k : Z) (m : Machine) :
  consistent k (self m) = true ->
  let index := size_history_index_ (self m) in
  exists size after,
    GetSize m = Done size m
    /\ AdvanceAndGetAge k m = Done (age_ (self after)) after
    /\ size_history_ (self after) =
       <[Z.to_nat index := size]> (size_history_ (self m))
    /\ size_history_ (self after) !! Z.to_nat index = Some size
    /\ size_history_index_ (self after) = (index + 1) mod k
    /\ age_ (self after) = wrap64 (age_ (self m) + 1)
    /\ age_ (self after) =
       (if age_ (self m) =? 2 ^ 64 - 1 then 0 else age_ (self m) + 1)
    /\ after =
       mkMachine
         (set_age_ (age_ (self after))
            (set_size_history_index_ (size_history_index_ (self after))
               (set_size_history_ (size_history_ (self after)) (self m))))
         (trace m)
    /\ forall env flushed,
         FlushSessionAcquireAndReleaseEvents env m = Done true flushed ->
         exists first second third,
           AdvanceAndGetAge k flushed = Done 1 first
           /\ AdvanceAndGetAge k first = Done 2 second
           /\ AdvanceAndGetAge k second = Done 3 third.
Proof.
  intros Hc index.
  destruct (GetSize_consistent k m Hc) as [size Hs].
  destruct (consistent_facts k _ Hc) as (Hi & Hl & Hv & Ha).
  pose proof (advance_runs k m size Hi Hs) as Hrun.
  match type of Hrun with _ = Done _ ?a => exists size, a end.
  split; [exact Hs|]. split; [exact Hrun|].
  cbn. split; [reflexivity|].
  split.
  { apply list_lookup_insert_eq. subst index. lia. }
  split; [reflexivity|]. split; [reflexivity|].
  split.
  { unfold wrap64. destruct (Z.eqb_spec (age_ (self m)) (2 ^ 64 - 1)) as [E|E].
    - rewrite E. reflexivity.
    - apply Z.mod_small. lia. }
  split; [reflexivity|].
  intros env flushed Hf.
  destruct (flush_consistent k env m flushed Hc Hf) as [Hc0 Ha0].
  destruct (advance_consistent k flushed Hc0) as (m1 & R1 & A1 & C1).
  destruct (advance_consistent k m1 C1) as (m2 & R2 & A2 & C2).
  destruct (advance_consistent k m2 C2) as (m3 & R3 & A3 & C3).
  rewrite Ha0 in R1, A1. rewrite A1 in R2, A2. rewrite A2 in R3.
  exists m1, m2, m3. auto.
Qed.

(** ** SignalWritesFinished *)

Lemma signal_runs (body : Callback -> M unit) (callback : Callback)
    (m : Machine) :
  SignalWritesFinished body (Some callback) m =
  if valid_ (self m)
  then match pending_on_writes_committed_ (self m) with
       | None =>
           Done tt
             (mkMachine
                (set_pending_on_writes_committed_ (Some callback) (self m))
                (trace m))
       | Some _ => Fatal DoubleRegistration m
       end
  else body callback
         (mkMachine (self m) (trace m ++ [CallbackInvoked callback])).
Proof.
  unfold SignalWritesFinished, invoke. run.
  destruct (valid_ (self m)); cbn; [|reflexivity].
  destruct (pending_on_writes_committed_ (self m)); reflexivity.
Qed.

(** C4. On a valid surface, [SignalWritesFinished] called while a
    completion callback is pending stops the program at the double
    registration check, with the machine as it was: the pending callback is
    neither replaced nor joined by the new one, and nothing is called. In
    particular, of two calls in a row starting from an empty slot, the first
    registers its callback and the second stops at that check. *)
Theorem double_registration_is_fatal (body : Callback -> M unit)
    (m : Machine) (first second : Callback) :
  valid_ (self m) = true ->
  (forall held,
      pending_on_writes_committed_ (self m) = Some held ->
      SignalWritesFinished body (Some second) m = Fatal DoubleRegistration m)
  /\ (pending_on_writes_committed_ (self m) = None ->
      exists after,
        SignalWritesFinished body (Some first) m = Done tt after
        /\ pending_on_writes_committed_ (self after) = Some first
        /\ trace after = trace m
        /\ SignalWritesFinished body (Some second) after =
           Fatal DoubleRegistration after).
Proof.
  intros Hv. split.
  - intros held Hp. rewrite signal_runs, Hv, Hp. reflexivity.
  - intros Hp. rewrite signal_runs, Hv, Hp.
    eexists. split; [reflexivity|]. split; [reflexivity|].
    split; [reflexivity|].
    rewrite signal_runs. cbn. rewrite Hv. reflexivity.
Qed.

(** C10. On a surface that is not valid, [SignalWritesFinished] calls the
    callback it is given at once: what the call does is what the callback
    does on the machine as it stood, with only the invocation added to the
    trace. Nothing is registered, the pending slot is not read, and the
    double registration check is not reached, whatever the slot holds: the
    method itself (its callback set aside) can stop there only at the debug
    check of an empty callback. So when the double registration check stops
    [SignalWritesFinished], the surface is valid. *)
Theorem signal_on_invalid_surface_calls_at_once (body : Callback -> M unit)
    (m : Machine) (callback : Callback) :
  valid_ (self m) = false ->
  SignalWritesFinished body (Some callback) m =
    body callback
      (mkMachine (self m) (trace m ++ [CallbackInvoked callback]))
  /\ SignalWritesFinished no_effect (Some callback) m =
     Done tt (mkMachine (self m) (trace m ++ [CallbackInvoked callback]))
  /\ (forall why stop,
        SignalWritesFinished body (Some callback) m = Fatal why stop ->
        body callback
          (mkMachine (self m) (trace m ++ [CallbackInvoked callback])) =
        Fatal why stop)
  /\ (forall on_writes_committed why stop,
        SignalWritesFinished no_effect on_writes_committed m =
          Fatal why stop ->
        on_writes_committed = None /\ why = DCheckFailed).
Proof.
  intros Hv. rewrite !signal_runs, Hv.
  split; [reflexivity|]. split; [reflexivity|]. split.
  - intros why stop H. exact H.
  - intros [held|] why stop H.
    + rewrite signal_runs, Hv in H. discriminate H.
    + cbn in H. inversion H. split; reflexivity.
Qed.

(** The double registration check of [SignalWritesFinished] itself (its
    callbacks set aside) stops the program on valid surfaces only. *)
Lemma double_registration_needs_valid (on_writes_committed : option Callback)
    (m stop : Machine) :
  SignalWritesFinished no_effect on_writes_committed m =
    Fatal DoubleRegistration stop ->
  valid_ (self m) = true
  /\ pending_on_writes_committed_ (self m) <> None.
Proof.
  destruct on_writes_committed as [callback|].
  - rewrite signal_runs. destruct (valid_ (self m)); [|discriminate].
    destruct (pending_on_writes_committed_ (self m)); [|discriminate].
    intros _. split; [reflexivity|discriminate].
  - cbn. discriminate.
Qed.

(** ** The destructor *)

Lemma dtor_runs (m : Machine) :
  VulkanSurface_dtor m =
  Done tt
    (mkMachine
       (set_wait_ (mkWait ZX_HANDLE_INVALID (wait_trigger (wait_ (self m))))
          (self m))
       (trace m
        ++ (if image_id_ (self m) =? 0 then []
            else [SessionEnqueue (NewReleaseResourceCmd (image_id_ (self m)))])
        ++ (if buffer_id_ (self m) =? 0 then []
            else [SessionDeregisterBufferCollection (buffer_id_ (self m))])
        ++ [WaitCancel])).
Proof.
  unfold VulkanSurface_dtor. run.
  destruct (image_id_ (self m) =? 0); cbn;
    destruct (buffer_id_ (self m) =? 0); cbn;
    rewrite <- ?app_assoc; reflexivity.
Qed.

(** ** Reset *)

(** [Reset] step by step. Its steps before the callback do not depend on
    what callbacks do: run with an empty slot [Reset] does them and calls
    nothing; run with a callback pending it does the same steps and then
    hands the machine to the callback. *)
Lemma Reset_runs (env : ResetEnv) (m : Machine) :
  exists events semaphore,
    let steps :=
      mkMachine
        (set_pending_on_writes_committed_ None
           (set_acquire_semaphore_ semaphore
              (set_command_buffer_ None
                 (if failed (reset_acquire_signal env)
                     || failed (reset_release_signal env)
                  then set_valid_ false (self m)
                  else self m))))
        (trace m ++ events) in
    invocations events = []
    /\ session_calls events = []
    /\ last events = Some WaitBegin
    /\ forall body,
         Reset body env
           (mkMachine (set_pending_on_writes_committed_ None (self m))
              (trace m)) = Done tt steps
         /\ Reset body env m =
            match pending_on_writes_committed_ (self m) with
            | Some callback =>
                body callback
                  (mkMachine (self steps)
                     (trace steps ++ [CallbackInvoked callback]))
            | None => Done tt steps
            end.
Proof.
  destruct m as [s tr].
  destruct s as [valid image_id buffer_id collection vulkan_image vk_memory
                 vk_memory_info sk_surface acquire_event release_event
                 acquire_semaphore command_buffer_fence command_buffer wait
                 size_history size_history_index age pending].
  unfold Reset, SemaphoreFromEvent, assign_acquire_semaphore,
    dispose_acquire_semaphore, invoke.
  run. cbn.
  destruct (failed (reset_acquire_signal env)); cbn;
    [|destruct (failed (reset_release_signal env)); cbn];
    (destruct command_buffer; cbn;
     destruct acquire_semaphore; cbn;
     (destruct (failed (sem_duplicate_status (reset_semaphore env))); cbn;
      [|destruct (failed (sem_create_result (reset_semaphore env))); cbn;
        [|destruct (failed (sem_import_result (reset_semaphore env)));
          cbn]]);
     do 2 eexists;
     (split; [|split; [|split]];
      [ | |
       | intros body; split;
         [cbn; rewrite <- !app_assoc; cbn; reflexivity
         |destruct pending; cbn; rewrite <- !app_assoc; cbn; reflexivity]]);
     reflexivity).
Qed.

Lemma OnHandleReady_signalled (body : Callback -> M unit) (env : ResetEnv)
    (m : Machine) :
  OnHandleReady body ZX_OK ZX_EVENT_SIGNALED env m = Reset body env m.
Proof. reflexivity. Qed.

(** C1. The release signal, delivered with status [ZX_OK], runs [Reset].
    With a completion callback pending, [Reset] does all its other steps
    first (the last of them re-arms the wait), empties the slot, and only
    then calls that callback, once: the callback runs on a machine whose
    slot is already empty, and what [Reset] leaves is what the callback
    leaves. With the slot empty, [Reset] does the same steps, calls no
    callback and returns. *)
Theorem reset_calls_pending_callback_last (body : Callback -> M unit)
    (env : ResetEnv) (m : Machine) :
  exists steps,
    Reset body env
      (mkMachine (set_pending_on_writes_committed_ None (self m)) (trace m)) =
      Done tt steps
    /\ pending_on_writes_committed_ (self steps) = None
    /\ invocations (trace steps) = invocations (trace m)
    /\ last (trace steps) = Some WaitBegin
    /\ Reset body env m =
       match pending_on_writes_committed_ (self m) with
       | Some callback =>
           body callback
             (mkMachine (self steps)
                (trace steps ++ [CallbackInvoked callback]))
       | None => Done tt steps
       end
    /\ (exists ended,
          Reset no_effect env m = Done tt ended
          /\ pending_on_writes_committed_ (self ended) = None
          /\ invocations (trace ended) =
             invocations (trace m)
             ++ match pending_on_writes_committed_ (self m) with
                | Some callback => [callback]
                | None => []
                end)
    /\ OnHandleReady body ZX_OK ZX_EVENT_SIGNALED env m = Reset body env m.
Proof.
  destruct (Reset_runs env m) as (events & semaphore & Hi & _ & Hl & Hr).
  cbv zeta in Hr.
  destruct (Hr body) as [Hs Hb]. destruct (Hr no_effect) as [_ Hn].
  eexists. split; [exact Hs|].
  split; [reflexivity|].
  split; [cbn; rewrite invocations_app, Hi, app_nil_r; reflexivity|].
  split; [cbn; rewrite last_app, Hl; reflexivity|].
  split; [exact Hb|].
  split; [|apply OnHandleReady_signalled].
  rewrite Hn.
  destruct (pending_on_writes_committed_ (self m)) as [callback|].
  - eexists. split; [reflexivity|]. cbn. split; [reflexivity|].
    rewrite !invocations_app, Hi, app_nil_r. reflexivity.
  - eexists. split; [reflexivity|]. cbn. split; [reflexivity|].
    rewrite invocations_app, Hi, !app_nil_r. reflexivity.
Qed.

(** C6. The validity flag after the steps of [Reset] (as the pending
    callback finds it, or as [Reset] leaves it when none is pending) is
    false when the re-arming of the acquire event or of the release event
    fails, and is the flag [Reset] found when both succeed. None of those
    steps stops the program: without a callback [Reset] returns, and with
    one it ends as the callback ends. *)
Theorem reset_rearm_failure_invalidates (body : Callback -> M unit)
    (env : ResetEnv) (m : Machine) :
  exists steps,
    valid_ (self steps) =
      (if failed (reset_acquire_signal env)
          || failed (reset_release_signal env)
       then false
       else valid_ (self m))
    /\ Reset body env m =
       match pending_on_writes_committed_ (self m) with
       | Some callback =>
           body callback
             (mkMachine (self steps)
                (trace steps ++ [CallbackInvoked callback]))
       | None => Done tt steps
       end
    /\ Reset no_effect env m =
       Done tt
         (mkMachine (self steps)
            (trace steps
             ++ match pending_on_writes_committed_ (self m) with
                | Some callback => [CallbackInvoked callback]
                | None => []
                end)).
Proof.
  destruct (Reset_runs env m) as (events & semaphore & _ & _ & _ & Hr).
  cbv zeta in Hr.
  destruct (Hr body) as [_ Hb]. destruct (Hr no_effect) as [_ Hn].
  eexists. split; [|split; [exact Hb|]].
  - cbn. destruct (failed (reset_acquire_signal env)
                   || failed (reset_release_signal env)); reflexivity.
  - rewrite Hn.
    destruct (pending_on_writes_committed_ (self m)); [reflexivity|].
    cbn. rewrite app_nil_r. reflexivity.
Qed.

(** ** The constructor *)

Local Arguments failed : simpl never.
Local Arguments isEmpty : simpl never.
Local Arguments wrap32 : simpl never.
Local Arguments builtin_ctz : simpl never.
Local Arguments Z.land : simpl never.
Local Arguments Z.eqb : simpl never.
Local Arguments replicate : simpl never.

(** The condition a run is waiting on: the scrutinee at the head. *)
Ltac stuck t :=
  lazymatch t with
  | match ?x with _ => _ end => stuck_or x
  | ?f _ => stuck f
  end
with stuck_or x :=
  match x with
  | _ => stuck x
  | _ => x
  end.

Ltac exec H :=
  repeat (lazymatch type of H with
          | _ = ?rhs =>
              let b := stuck rhs in
              destruct b eqn:?; cbn in H
          end).

Ltac split_trace :=
  cbn;
  first [ rewrite <- !app_assoc; reflexivity
        | reflexivity
        | instantiate (1 := []); rewrite app_nil_r; reflexivity ].

(** Every path through the constructor, from the members as declared. *)
Lemma new_runs (k : Z) (body : Callback -> M unit) (env : CtorEnv)
    (context : option GrDirectContext) (session : option Z)
    (size : SkISize) (buffer_id : Z) (before : list Event)
    (ran : Outcome unit) :
  ran = new_VulkanSurface k body env context session size buffer_id before ->
  exists events,
    trace (final ran) = before ++ events
    /\ invocations events = []
    /\ ((session_calls events = []
         /\ image_id_ (self (final ran)) = 0
         /\ buffer_id_ (self (final ran)) = 0)
        \/ (session_calls events =
              [SessionRegisterBufferCollection buffer_id]
            /\ image_id_ (self (final ran)) = 0
            /\ buffer_id_ (self (final ran)) = buffer_id)
        \/ (session_calls events =
              [SessionRegisterBufferCollection buffer_id;
               SessionAllocResourceId (ctor_resource_id env);
               SessionEnqueue
                 (NewCreateImage2Cmd (ctor_resource_id env) (fWidth size)
                    (fHeight size) buffer_id 0)]
            /\ image_id_ (self (final ran)) = ctor_resource_id env
            /\ buffer_id_ (self (final ran)) = buffer_id
            /\ valid_ (self (final ran)) = true))
    /\ (age_ (self (final ran)) = 0
        /\ size_history_index_ (self (final ran)) = 0
        /\ size_history_ (self (final ran)) =
           replicate (Z.to_nat k) MakeEmpty
        /\ pending_on_writes_committed_ (self (final ran)) = None)
    /\ (valid_ (self (final ran)) = true ->
        ran = Done tt (final ran)
        /\ sk_surface_ (self (final ran)) =
           Some (mkSkSurface (fWidth size) (fHeight size) true)).
Proof.
  unfold new_VulkanSurface, VulkanSurface_ctor, AllocateDeviceMemory,
    CreateVulkanImage, SetupSkiaSurface, CreateFences, SemaphoreFromEvent,
    PushSessionImageSetupOps, Reset, assign_acquire_semaphore,
    dispose_acquire_semaphore, invoke, initial_surface,
    MakeFromBackendRenderTarget.
  run. cbn. intros H.
  exec H.
  all: try match goal with
         | E : (0 =? 0) = false |- _ => cbv in E; discriminate E
         end.
  all: subst ran; eexists; (split; [split_trace|]); cbn.
  all: split; [reflexivity|].
  all: split; [cbn; auto 6|].
  all: split; [rewrite ?length_replicate; repeat split|].
  all: intros Hv; try discriminate Hv.
  all: repeat match goal with
         | E : negb _ = false |- _ => apply negb_false_iff in E
         end.
  all: repeat split; congruence.
Qed.

(** ** The memory type *)

Lemma ctz_pos_bit (p : positive) :
  0 <= ctz_pos p /\ Z.testbit (Zpos p) (ctz_pos p) = true.
Proof.
  induction p as [q IH|q IH|]; cbn [ctz_pos].
  - split; [lia|reflexivity].
  - destruct IH as [Hn Hb]. split; [lia|].
    change (Zpos q~0) with (2 * Zpos q).
    replace (1 + ctz_pos q) with (Z.succ (ctz_pos q)) by lia.
    rewrite Z.double_bits_succ. exact Hb.
  - split; [lia|reflexivity].
Qed.

Lemma builtin_ctz_bit (bits : Z) :
  0 <= bits < 2 ^ 32 ->
  (bits =? 0) = false ->
  0 <= builtin_ctz bits < 32 /\ Z.testbit bits (builtin_ctz bits) = true.
Proof.
  intros Hr Hz. apply Z.eqb_neq in Hz.
  destruct bits as [|p|p]; [congruence| |lia].
  unfold builtin_ctz. destruct (ctz_pos_bit p) as [Hn Hb].
  split; [|exact Hb]. split; [exact Hn|].
  destruct (Z_lt_ge_dec (ctz_pos p) 32) as [Hlt|Hge]; [exact Hlt|].
  exfalso. rewrite Z.bits_above_log2 in Hb; [discriminate|lia|].
  assert (Z.log2 (Zpos p) < 32) by (apply Z.log2_lt_pow2; lia).
  lia.
Qed.

(** Every path through [AllocateDeviceMemory]: the driver is asked for
    memory at most once, and then for the type at the lowest set bit of the
    two masks' conjunction. *)
Lemma alloc_runs (env : AllocEnv) (context : option GrDirectContext)
    (size : SkISize) (buffer_id : Z) (m : Machine) (ran : Outcome bool) :
  ran = AllocateDeviceMemory env context size buffer_id m ->
  let bits :=
    Z.land (req_memoryTypeBits (image_requirements (alloc_image env)))
           (alloc_properties_memoryTypeBits env) in
  (allocated_memory_types (trace (final ran)) =
     allocated_memory_types (trace m)
   \/ ((bits =? 0) = false
       /\ allocated_memory_types (trace (final ran)) =
          allocated_memory_types (trace m) ++ [wrap32 (builtin_ctz bits)]))
  /\ (forall after,
        ran = Done true after ->
        (bits =? 0) = false
        /\ memoryTypeIndex (vk_memory_info_ (self after)) = wrap32 (builtin_ctz bits)
        /\ allocated_memory_types (trace after) =
           allocated_memory_types (trace m) ++ [wrap32 (builtin_ctz bits)])
  /\ ((bits =? 0) = true ->
      allocated_memory_types (trace (final ran)) =
        allocated_memory_types (trace m)
      /\ ((exists after, ran = Done false after)
          \/ (exists stop, ran = Fatal DCheckFailed stop))
      /\ (isEmpty size = false ->
          failed (alloc_collection_status env) = false ->
          failed (alloc_duplicate_status env) = false ->
          failed (alloc_sync_status env) = false ->
          failed (alloc_import_result env) = false ->
          failed (image_constraints_result (alloc_image env)) = false ->
          failed (image_create_result (alloc_image env)) = false ->
          failed (alloc_properties_result env) = false ->
          exists stop, ran = Fatal DCheckFailed stop)).
Proof.
  unfold AllocateDeviceMemory, CreateVulkanImage, SetupSkiaSurface,
    MakeFromBackendRenderTarget.
  run. cbn. intros H.
  exec H.
  all: repeat match goal with
         | E : negb _ = false |- _ => apply negb_false_iff in E
         | E : negb _ = true |- _ => apply negb_true_iff in E
         end.
  all: subst ran; cbn [final trace self].
  all: rewrite ?allocated_memory_types_app; cbn; rewrite ?app_nil_r.
  all: split; [auto|].
  all: split; [intros after Ha; try discriminate Ha; inversion Ha; subst;
               cbn; rewrite ?allocated_memory_types_app; cbn;
               rewrite ?app_nil_r; auto|].
  all: intros Hz; try congruence.
  all: split; [reflexivity|].
  all: split; [eauto|].
  all: intros; try congruence; eauto.
Qed.

(** C7. [AllocateDeviceMemory] asks the driver for memory of one type only:
    the index of the lowest bit set in both the driver's and the
    collection's mask of suitable types, which is therefore a type both
    accept; that index is what it records when it succeeds. When no type is
    in both masks it never asks for memory and never succeeds: it stops at
    the fatal check as soon as both masks are known, that is whenever the
    steps before the check succeed, and otherwise has already returned
    false. *)
Theorem memory_type_is_in_the_intersection (env : AllocEnv)
    (context : option GrDirectContext) (size : SkISize) (buffer_id : Z)
    (m : Machine) :
  let driver_types :=
    req_memoryTypeBits (image_requirements (alloc_image env)) in
  let collection_types := alloc_properties_memoryTypeBits env in
  let ran := AllocateDeviceMemory env context size buffer_id m in
  0 <= driver_types < 2 ^ 32 ->
  0 <= collection_types < 2 ^ 32 ->
  (forall index,
      In index (allocated_memory_types (trace (final ran))) ->
      In index (allocated_memory_types (trace m))
      \/ (0 <= index < 32
          /\ Z.testbit driver_types index = true
          /\ Z.testbit collection_types index = true))
  /\ (forall after,
        ran = Done true after ->
        let chosen := memoryTypeIndex (vk_memory_info_ (self after)) in
        0 <= chosen < 32
        /\ Z.testbit driver_types chosen = true
        /\ Z.testbit collection_types chosen = true
        /\ allocated_memory_types (trace after) =
           allocated_memory_types (trace m) ++ [chosen])
  /\ (Z.land driver_types collection_types = 0 ->
      allocated_memory_types (trace (final ran)) =
        allocated_memory_types (trace m)
      /\ ((exists after, ran = Done false after)
          \/ (exists stop, ran = Fatal DCheckFailed stop))
      /\ (isEmpty size = false ->
          failed (alloc_collection_status env) = false ->
          failed (alloc_duplicate_status env) = false ->
          failed (alloc_sync_status env) = false ->
          failed (alloc_import_result env) = false ->
          failed (image_constraints_result (alloc_image env)) = false ->
          failed (image_create_result (alloc_image env)) = false ->
          failed (alloc_properties_result env) = false ->
          exists stop, ran = Fatal DCheckFailed stop)).
Proof.
  intros driver_types collection_types ran Hd Hc.
  destruct (alloc_runs env context size buffer_id m ran eq_refl)
    as (Hasked & Hdone & Hempty).
  fold driver_types collection_types in Hasked, Hdone, Hempty.
  assert (0 <= Z.land driver_types collection_types < 2 ^ 32) as Hr.
  { split; [apply Z.land_nonneg; lia|].
    destruct (Z.eq_dec (Z.land driver_types collection_types) 0) as [E|E];
      [rewrite E; lia|].
    apply Z.log2_lt_pow2.
    - pose proof (Z.land_nonneg driver_types collection_types). lia.
    - eapply Z.le_lt_trans; [apply Z.log2_land; lia|].
      apply Z.min_lt_iff. left.
      destruct (Z.eq_dec driver_types 0) as [E0|E0].
      + rewrite E0. cbn. lia.
      + apply Z.log2_lt_pow2; lia. }
  assert ((Z.land driver_types collection_types =? 0) = false ->
          let chosen :=
            wrap32 (builtin_ctz (Z.land driver_types collection_types)) in
          0 <= chosen < 32
          /\ Z.testbit driver_types chosen = true
          /\ Z.testbit collection_types chosen = true) as Hbit.
  { intros Hz. destruct (builtin_ctz_bit _ Hr Hz) as [Hi Hb].
    rewrite Z.land_spec in Hb. apply andb_true_iff in Hb.
    cbv zeta. unfold wrap32. rewrite Z.mod_small by lia. tauto. }
  split; [|split].
  - intros index Hin. destruct Hasked as [Hsame|[Hz Hone]].
    + left. rewrite <- Hsame. exact Hin.
    + rewrite Hone in Hin. apply in_app_or in Hin.
      destruct Hin as [Hin|[<-|[]]]; [left; exact Hin|right].
      apply Hbit; exact Hz.
  - intros after Ha. destruct (Hdone after Ha) as (Hz & Hi & Ht).
    cbv zeta. rewrite Hi. destruct (Hbit Hz) as (? & ? & ?).
    repeat split; auto; lia.
  - intros Hz. apply Hempty. apply Z.eqb_eq. exact Hz.
Qed.

(** ** Destruction *)

(** C8. Zero is the source's mark for no id, and what is released are the
    ids other than zero: after any run of the constructor, completed or not,
    the destructor enqueues the release of a resource exactly when the
    session allocated that id and it is not zero, and deregisters a
    collection exactly when it was registered under that id and the id is
    not zero. An id of zero, allocated or registered, is never released.
    In general the destructor enqueues the release exactly when
    [image_id_] is not zero and deregisters exactly when [buffer_id_] is
    not zero; each of the two is decided by its own member alone, and the
    destructor calls the session for nothing else. After any run of the
    constructor the two members hold exactly what was acquired:
    [image_id_] is the id the session allocated, if it allocated one, and
    zero otherwise; [buffer_id_] is the id the collection was registered
    under, if it was registered, and zero otherwise. So a surface whose
    construction acquired neither makes no call to the session when
    destroyed, and one that never became valid never releases an image
    resource. *)
Theorem destructor_releases_what_was_acquired (m : Machine) :
  (exists after,
      VulkanSurface_dtor m = Done tt after
      /\ session_calls (trace after) =
         session_calls (trace m)
         ++ (if image_id_ (self m) =? 0 then []
             else [SessionEnqueue
                     (NewReleaseResourceCmd (image_id_ (self m)))])
         ++ (if buffer_id_ (self m) =? 0 then []
             else [SessionDeregisterBufferCollection (buffer_id_ (self m))]))
  /\ forall k body env context session size buffer_id,
       let built :=
         final (new_VulkanSurface k body env context session size buffer_id
                  []) in
       let destroyed := final (VulkanSurface_dtor built) in
       (forall id,
          In (SessionEnqueue (NewReleaseResourceCmd id)) (trace destroyed)
          <-> id <> 0 /\ In (SessionAllocResourceId id) (trace built))
       /\ (forall id,
             In (SessionDeregisterBufferCollection id) (trace destroyed)
             <-> id <> 0
                 /\ In (SessionRegisterBufferCollection id) (trace built))
       /\ (image_id_ (self built) = 0
           \/ In (SessionAllocResourceId (image_id_ (self built)))
                 (trace built))
       /\ (buffer_id_ (self built) = 0
           \/ In (SessionRegisterBufferCollection (buffer_id_ (self built)))
                 (trace built))
       /\ (forall id,
             In (SessionAllocResourceId id) (trace built) ->
             image_id_ (self built) = id)
       /\ (forall id,
             In (SessionRegisterBufferCollection id) (trace built) ->
             buffer_id_ (self built) = id)
       /\ (session_calls (trace built) = [] ->
           session_calls (trace destroyed) = [])
       /\ (valid_ (self built) = false ->
           image_id_ (self built) = 0
           /\ (buffer_id_ (self built) = 0
               \/ session_calls (trace built) =
                  [SessionRegisterBufferCollection
                     (buffer_id_ (self built))])).
Proof.
  split.
  - rewrite dtor_runs. eexists. split; [reflexivity|]. cbn.
    rewrite !session_calls_app. cbn.
    destruct (image_id_ (self m) =? 0), (buffer_id_ (self m) =? 0);
      cbn; rewrite ?app_nil_r; reflexivity.
  - intros k body env context session size buffer_id built destroyed.
    destruct (new_runs k body env context session size buffer_id [] _ eq_refl)
      as (events & Ht & _ & Hids & _ & Hvalid).
    fold built in Ht, Hids, Hvalid. cbn in Ht.
    assert (forall e, In e (session_calls events) -> In e (trace built))
      as Hin.
    { intros e He. rewrite Ht. unfold session_calls in He.
      apply List.filter_In in He. tauto. }
    assert (forall e, is_session_call e = true -> In e (trace built) ->
                      In e (session_calls events)) as Hout.
    { intros e Hs He. rewrite Ht in He. unfold session_calls.
      apply List.filter_In. auto. }
    assert (forall e, is_session_call e = true ->
              (In e (trace destroyed) <->
               In e (session_calls events
                     ++ (if image_id_ (self built) =? 0 then []
                         else [SessionEnqueue
                                 (NewReleaseResourceCmd
                                    (image_id_ (self built)))])
                     ++ (if buffer_id_ (self built) =? 0 then []
                         else [SessionDeregisterBufferCollection
                                 (buffer_id_ (self built))]))))
      as Hdone.
    { intros e Hs. subst destroyed. rewrite dtor_runs. cbn [final trace].
      rewrite Ht, !in_app_iff. unfold session_calls.
      rewrite List.filter_In. cbn [In].
      split; [|tauto].
      intros [He|[He|[He|[He|[]]]]]; auto.
      subst e. discriminate Hs. }
    split.
    { intros id. rewrite Hdone by reflexivity.
      split.
      - intros He.
        destruct Hids as [(Hs & Hi & Hb)|[(Hs & Hi & Hb)|(Hs & Hi & Hb & Hv)]];
          rewrite Hs, Hi, Hb in He;
          destruct (Z.eqb_spec 0 0) as [_|Hne]; try congruence;
          try destruct (Z.eqb_spec buffer_id 0);
          try destruct (Z.eqb_spec (ctor_resource_id env) 0);
          cbn in He;
          repeat match goal with
                 | H : _ \/ _ |- _ => destruct H
                 | H : False |- _ => destruct H
                 end;
          try discriminate.
        all: match goal with
             | H : SessionEnqueue _ = SessionEnqueue _ |- _ =>
                 inversion H; subst id
             end.
        all: split; [assumption|]. all: apply Hin; rewrite Hs; cbn; auto.
      - intros [Hne Hid]. apply Hout in Hid; [|reflexivity].
        destruct Hids as [(Hs & Hi & Hb)|[(Hs & Hi & Hb)|(Hs & Hi & Hb & Hv)]];
          rewrite Hs in Hid |- *; rewrite Hi; cbn in Hid;
          repeat match goal with
                 | H : _ \/ _ |- _ => destruct H
                 | H : False |- _ => destruct H
                 end;
          try discriminate.
        match goal with
        | H : SessionAllocResourceId _ = SessionAllocResourceId _ |- _ =>
            injection H as Heq; subst id
        end.
        repeat match goal with
               | |- context [?x =? 0] => destruct (Z.eqb_spec x 0)
               end;
          try contradiction; rewrite !in_app_iff; cbn; tauto. }
    split.
    { intros id. rewrite Hdone by reflexivity.
      split.
      - intros He.
        destruct Hids as [(Hs & Hi & Hb)|[(Hs & Hi & Hb)|(Hs & Hi & Hb & Hv)]];
          rewrite Hs, Hi, Hb in He;
          destruct (Z.eqb_spec 0 0) as [_|Hne]; try congruence;
          try destruct (Z.eqb_spec buffer_id 0);
          try destruct (Z.eqb_spec (ctor_resource_id env) 0);
          cbn in He;
          repeat match goal with
                 | H : _ \/ _ |- _ => destruct H
                 | H : False |- _ => destruct H
                 end;
          try discriminate.
        all: match goal with
             | H : SessionDeregisterBufferCollection _ =
                   SessionDeregisterBufferCollection _ |- _ =>
                 inversion H; subst id
             end.
        all: split; [assumption|]. all: apply Hin; rewrite Hs; cbn; auto.
      - intros [Hne Hid]. apply Hout in Hid; [|reflexivity].
        destruct Hids as [(Hs & Hi & Hb)|[(Hs & Hi & Hb)|(Hs & Hi & Hb & Hv)]];
          rewrite Hs in Hid |- *; rewrite Hb; cbn in Hid;
          repeat match goal with
                 | H : _ \/ _ |- _ => destruct H
                 | H : False |- _ => destruct H
                 end;
          try discriminate.
        all: match goal with
             | H : SessionRegisterBufferCollection _ =
                   SessionRegisterBufferCollection _ |- _ =>
                 injection H as Heq; subst id
             end.
        all: repeat match goal with
                    | |- context [?x =? 0] => destruct (Z.eqb_spec x 0)
                    end;
          try contradiction; rewrite !in_app_iff; cbn; tauto. }
    subst destroyed.
    destruct Hids as [(Hs & Hi & Hb)|[(Hs & Hi & Hb)|(Hs & Hi & Hb & Hv)]];
      rewrite Hs in Hin, Hout; rewrite Hi, Hb.
    + repeat split; auto.
      * intros id Hid. apply Hout in Hid; [destruct Hid|reflexivity].
      * intros id Hid. apply Hout in Hid; [destruct Hid|reflexivity].
      * intros _. rewrite dtor_runs. cbn. rewrite Hi, Hb. cbn.
        rewrite !session_calls_app, Ht, Hs. reflexivity.
    + split; [auto|]. split.
      { right. apply Hin. left. reflexivity. }
      split.
      { intros id Hid. apply Hout in Hid; [|reflexivity].
        destruct Hid as [E|[]]. discriminate E. }
      split.
      { intros id Hid. apply Hout in Hid; [|reflexivity].
        destruct Hid as [E|[]]. inversion E. reflexivity. }
      split.
      { rewrite Ht, Hs. discriminate. }
      intros _. split; [reflexivity|]. right. rewrite Ht. exact Hs.
    + split.
      { right. apply Hin. right. left. reflexivity. }
      split.
      { right. apply Hin. left. reflexivity. }
      split.
      { intros id Hid. apply Hout in Hid; [|reflexivity].
        destruct Hid as [E|[E|[E|[]]]]; try discriminate E.
        inversion E. reflexivity. }
      split.
      { intros id Hid. apply Hout in Hid; [|reflexivity].
        destruct Hid as [E|[E|[E|[]]]]; try discriminate E.
        inversion E. reflexivity. }
      split.
      { rewrite Ht, Hs. discriminate. }
      rewrite Hv. discriminate.
Qed.

(** ** What a surface in use keeps

    The surface is driven through its methods and the release signal, with
    callbacks that respect what they cannot reach: [sk_surface_] and the
    ring bookkeeping are private and no public method lets a caller break
    them. *)

Section Driven.

Variable k : Z.
Variable body : Callback -> M unit.
Hypothesis body_keeps_surface : keeps_surface body.
Hypothesis body_keeps_consistent : keeps_consistent k body.

Lemma Reset_members_surface (env : ResetEnv) (s : VulkanSurface) :
  sk_surface_
    (if failed (reset_acquire_signal env)
        || failed (reset_release_signal env)
     then set_valid_ false s else s) = sk_surface_ s.
Proof.
  destruct (failed (reset_acquire_signal env)
            || failed (reset_release_signal env)); reflexivity.
Qed.

Lemma Reset_keeps_surface (env : ResetEnv) (m after : Machine) :
  Reset body env m = Done tt after ->
  sk_surface_ (self after) = sk_surface_ (self m).
Proof.
  destruct (Reset_runs env m) as (events & semaphore & _ & _ & _ & Hr).
  cbv zeta in Hr. destruct (Hr body) as [_ Hb]. rewrite Hb. clear Hr Hb.
  destruct (pending_on_writes_committed_ (self m)) as [callback|].
  - intros H. apply body_keeps_surface in H. rewrite H. cbn.
    apply Reset_members_surface.
  - intros H. inversion H; subst. cbn. apply Reset_members_surface.
Qed.

Lemma Reset_keeps_consistent (env : ResetEnv) (m after : Machine) :
  consistent k (self m) = true ->
  Reset body env m = Done tt after ->
  consistent k (self after) = true.
Proof.
  intros Hc.
  destruct (Reset_runs env m) as (events & semaphore & _ & _ & _ & Hr).
  cbv zeta in Hr. destruct (Hr body) as [_ Hb]. rewrite Hb. clear Hr Hb.
  destruct (consistent_facts k _ Hc) as (Hi & Hl & Hv & Ha).
  match goal with
  | |- context [mkMachine ?members (_ ++ events)] =>
      assert (consistent k members = true) as Hsteps
  end.
  { apply consistent_intro; cbn;
      destruct (failed (reset_acquire_signal env)
                || failed (reset_release_signal env)); cbn; auto;
      discriminate. }
  destruct (pending_on_writes_committed_ (self m)) as [callback|].
  - intros H. eapply body_keeps_consistent; [|exact H]. exact Hsteps.
  - intros H. inversion H; subst. exact Hsteps.
Qed.

Lemma perform_keeps_surface (c : Call) (m after : Machine) :
  perform k body c m = Done tt after ->
  sk_surface_ (self after) = sk_surface_ (self m).
Proof.
  intros H. destruct c; cbn [perform] in H.
  - unfold IsValid in H. run. inversion H; subst; reflexivity.
  - unfold bind in H. rewrite GetSize_runs in H.
    destruct (valid_ (self m)); [destruct (sk_surface_ (self m)) eqn:E|];
      run; inversion H; subst; auto.
  - unfold GetImageId in H. run. inversion H; subst; reflexivity.
  - unfold GetSkiaSurface in H. run.
    destruct (valid_ (self m)); inversion H; subst; reflexivity.
  - unfold AdvanceAndGetAge in H. unfold bind at 1 2 in H.
    rewrite GetSize_runs in H.
    destruct (valid_ (self m)); [destruct (sk_surface_ (self m)) eqn:E|];
      try discriminate H; run;
      destruct ((size_history_index_ (self m) <? 0)
                || (k <=? size_history_index_ (self m)));
      cbn in H; inversion H; subst; cbn; auto.
  - unfold bind in H. rewrite flush_runs in H. cbv zeta in H.
    destruct (failed (flush_acquire_status env));
      [|destruct (failed (flush_release_status env))];
      run; inversion H; subst; reflexivity.
  - destruct on_writes_committed as [callback|]; [|discriminate H].
    rewrite signal_runs in H.
    destruct (valid_ (self m)).
    + destruct (pending_on_writes_committed_ (self m)); [discriminate H|].
      inversion H; subst; reflexivity.
    + apply body_keeps_surface in H. exact H.
  - unfold OnHandleReady in H. destruct (failed status).
    + run. inversion H; subst; reflexivity.
    + unfold bind, FML_DCHECK in H.
      destruct (negb (Z.land observed ZX_EVENT_SIGNALED =? 0));
        [|discriminate H].
      unfold ret in H. cbv beta iota in H.
      eapply Reset_keeps_surface; eauto.
Qed.

Lemma perform_keeps_consistent (c : Call) (m after : Machine) :
  consistent k (self m) = true ->
  perform k body c m = Done tt after ->
  consistent k (self after) = true.
Proof.
  intros Hc H. destruct c; cbn [perform] in H.
  - unfold IsValid in H. run. inversion H; subst; exact Hc.
  - unfold bind in H. rewrite GetSize_runs in H.
    destruct (valid_ (self m)); [destruct (sk_surface_ (self m)) eqn:E|];
      run; inversion H; subst; auto.
  - unfold GetImageId in H. run. inversion H; subst; exact Hc.
  - unfold GetSkiaSurface in H. run.
    destruct (valid_ (self m)); inversion H; subst; exact Hc.
  - destruct (advance_consistent k m Hc) as (next & Hrun & _ & Hnext).
    unfold bind in H. rewrite Hrun in H. run. inversion H; subst.
    exact Hnext.
  - unfold bind in H.
    destruct (FlushSessionAcquireAndReleaseEvents env m)
      as [[|] next|why next] eqn:Hf; [| |discriminate H].
    + apply (flush_consistent k env m next Hc) in Hf.
      run. inversion H; subst. apply Hf.
    + rewrite flush_runs in Hf. cbv zeta in Hf.
      destruct (failed (flush_acquire_status env));
        [|destruct (failed (flush_release_status env))];
        inversion Hf; subst; run; inversion H; subst; exact Hc.
  - destruct on_writes_committed as [callback|]; [|discriminate H].
    rewrite signal_runs in H.
    destruct (valid_ (self m)) eqn:Hv.
    + destruct (pending_on_writes_committed_ (self m)); [discriminate H|].
      inversion H; subst.
      destruct (consistent_facts k _ Hc) as (Hi & Hl & Hs & Ha).
      apply consistent_intro; cbn; auto.
    + eapply body_keeps_consistent; [|exact H]. exact Hc.
  - unfold OnHandleReady in H. destruct (failed status).
    + run. inversion H; subst; exact Hc.
    + unfold bind, FML_DCHECK in H.
      destruct (negb (Z.land observed ZX_EVENT_SIGNALED =? 0));
        [|discriminate H].
      unfold ret in H. cbv beta iota in H.
      eapply Reset_keeps_consistent; eauto.
Qed.

Lemma perform_all_keeps_surface (calls : list Call) (m after : Machine) :
  perform_all k body calls m = Done tt after ->
  sk_surface_ (self after) = sk_surface_ (self m).
Proof.
  revert m. induction calls as [|c calls IH]; intros m H.
  - cbn in H. inversion H; subst. reflexivity.
  - cbn [perform_all] in H. apply bind_Done in H.
    destruct H as ([] & m1 & Hc & Hrest).
    rewrite (IH _ Hrest). eapply perform_keeps_surface; eauto.
Qed.

Lemma perform_all_keeps_consistent (calls : list Call) (m after : Machine) :
  consistent k (self m) = true ->
  perform_all k body calls m = Done tt after ->
  consistent k (self after) = true.
Proof.
  revert m. induction calls as [|c calls IH]; intros m Hm H.
  - cbn in H. inversion H; subst. exact Hm.
  - cbn [perform_all] in H. apply bind_Done in H.
    destruct H as ([] & m1 & Hc & Hrest).
    apply (IH m1); [|exact Hrest]. eapply perform_keeps_consistent; eauto.
Qed.

(** Whatever the constructor met, what it leaves is consistent; so is every
    surface in use, and [AdvanceAndGetAge] returns on it. *)
Lemma new_is_consistent (env : CtorEnv) (context : option GrDirectContext)
    (session : option Z) (size : SkISize) (buffer_id : Z)
    (before : list Event) :
  0 < k ->
  consistent k
    (self (final (new_VulkanSurface k body env context session size
                    buffer_id before))) = true.
Proof.
  intros Hk.
  destruct (new_runs k body env context session size buffer_id before _
              eq_refl) as (events & _ & _ & _ & Hfresh & Hvalid).
  destruct Hfresh as (Ha & Hi & Hh & _).
  apply consistent_intro.
  - rewrite Hi. lia.
  - rewrite Hh, length_replicate. lia.
  - intros Hv. destruct (Hvalid Hv) as [_ Hs]. rewrite Hs. discriminate.
  - rewrite Ha. lia.
Qed.

Lemma advance_returns_in_use (env : CtorEnv)
    (context : option GrDirectContext) (session : option Z)
    (size : SkISize) (buffer_id : Z) (before : list Event)
    (calls : list Call) (m : Machine) :
  0 < k ->
  perform_all k body calls
    (final (new_VulkanSurface k body env context session size buffer_id
              before)) = Done tt m ->
  consistent k (self m) = true
  /\ exists after,
       AdvanceAndGetAge k m = Done (wrap64 (age_ (self m) + 1)) after.
Proof.
  intros Hk H.
  pose proof (perform_all_keeps_consistent calls _ m
                (new_is_consistent env context session size buffer_id
                   before Hk) H) as Hc.
  split; [exact Hc|].
  destruct (advance_consistent k m Hc) as (after & Hrun & _).
  exists after. exact Hrun.
Qed.

End Driven.

(** C5. Take a surface constructed for [size] and then driven through any
    calls of its methods and any deliveries of the release signal. While it
    is valid, [GetSize] returns exactly [size]. On any surface that is not
    valid, whatever size was requested and whatever its image holds,
    [GetSize] returns zero by zero. [IsValid] returns the validity flag, and
    neither query changes any member or calls anything. *)
Theorem GetSize_is_the_requested_size (k : Z) (body : Callback -> M unit)
    (env : CtorEnv) (context : option GrDirectContext) (session : option Z)
    (size : SkISize) (buffer_id : Z) (before : list Event)
    (calls : list Call) (constructed m : Machine) :
  keeps_surface body ->
  new_VulkanSurface k body env context session size buffer_id before =
    Done tt constructed ->
  valid_ (self constructed) = true ->
  perform_all k body calls constructed = Done tt m ->
  GetSize constructed = Done size constructed
  /\ (if valid_ (self m)
      then GetSize m = Done size m
      else GetSize m = Done (Make 0 0) m)
  /\ (forall any : Machine,
        valid_ (self any) = false -> GetSize any = Done (Make 0 0) any)
  /\ (forall any : Machine, IsValid any = Done (valid_ (self any)) any)
  /\ (forall (any : Machine) result after,
        GetSize any = Done result after -> after = any).
Proof.
  intros Hk Hnew Hv Hcalls.
  destruct (new_runs k body env context session size buffer_id before _
              eq_refl) as (events & _ & _ & _ & _ & Hvalid).
  rewrite Hnew in Hvalid. cbn [final] in Hvalid.
  destruct (Hvalid Hv) as (_ & Hsk).
  pose proof (perform_all_keeps_surface k body Hk calls constructed m
                Hcalls) as Hkeep.
  rewrite Hsk in Hkeep.
  split; [|split; [|split; [|split]]].
  - rewrite GetSize_runs, Hv, Hsk. destruct size; reflexivity.
  - rewrite GetSize_runs. destruct (valid_ (self m)); [|reflexivity].
    rewrite Hkeep. destruct size; reflexivity.
  - intros any Hany. rewrite GetSize_runs, Hany. reflexivity.
  - reflexivity.
  - intros any result after. rewrite GetSize_runs.
    destruct (valid_ (self any)); [destruct (sk_surface_ (self any))|];
      intros H; inversion H; reflexivity.
Qed.

(** ** The frame cycle *)

Local Arguments Reset : simpl never.
Local Arguments SignalWritesFinished : simpl never.
Local Arguments FlushSessionAcquireAndReleaseEvents : simpl never.
Local Arguments GetSize : simpl never.

Lemma Reset_idle (body : Callback -> M unit) (env : ResetEnv) (m : Machine) :
  pending_on_writes_committed_ (self m) = None ->
  failed (reset_acquire_signal env) = false ->
  failed (reset_release_signal env) = false ->
  exists events semaphore,
    invocations events = []
    /\ Reset body env m =
       Done tt
         (mkMachine
            (set_pending_on_writes_committed_ None
               (set_acquire_semaphore_ semaphore
                  (set_command_buffer_ None (self m))))
            (trace m ++ events)).
Proof.
  intros Hp Ha Hr.
  destruct (Reset_runs env m) as (events & semaphore & Hi & _ & _ & Hreset).
  cbv zeta in Hreset. destruct (Hreset body) as [_ Hb].
  rewrite Hp, Ha, Hr in Hb. exists events, semaphore. split; assumption.
Qed.

(** With the slot empty and both events re-arming, [Reset] is these calls,
    in this order, and leaves these members. *)
Lemma Reset_rearmed (body : Callback -> M unit) (env : ResetEnv)
    (m : Machine) :
  pending_on_writes_committed_ (self m) = None ->
  failed (reset_acquire_signal env) = false ->
  failed (reset_release_signal env) = false ->
  Reset body env m =
  Done tt
    (mkMachine
       (set_pending_on_writes_committed_ None
          (set_acquire_semaphore_
             (if semaphore_made (reset_semaphore env)
              then Some (sem_created (reset_semaphore env))
              else None)
             (set_command_buffer_ None (self m))))
       (trace m
        ++ [ZxEventSignal (acquire_event_ (self m)) ZX_EVENT_SIGNALED 0
              (reset_acquire_signal env);
            ZxEventSignal (release_event_ (self m)) ZX_EVENT_SIGNALED 0
              (reset_release_signal env)]
        ++ match command_buffer_ (self m) with
           | Some _ =>
               [VkWaitForFences (command_buffer_fence_ (self m))
                  (reset_wait_for_fences env)]
           | None => []
           end
        ++ [VkResetFences (command_buffer_fence_ (self m))
              (reset_reset_fences env)]
        ++ match acquire_semaphore_ (self m) with
           | Some held => [VkDestroySemaphore held]
           | None => []
           end
        ++ ZxEventDuplicate (acquire_event_ (self m))
             (sem_duplicate_status (reset_semaphore env))
             (sem_duplicate (reset_semaphore env))
           :: (if failed (sem_duplicate_status (reset_semaphore env))
               then []
               else
                 VkCreateSemaphore (sem_create_result (reset_semaphore env))
                   (sem_created (reset_semaphore env))
                 :: (if failed (sem_create_result (reset_semaphore env))
                     then []
                     else
                       [VkImportSemaphoreZirconHandle
                          (sem_created (reset_semaphore env))
                          (wrap32 (sem_duplicate (reset_semaphore env)))
                          (sem_import_result (reset_semaphore env))]))
        ++ [WaitBegin])).
Proof.
  intros Hp Ha Hr.
  destruct m as [s tr].
  destruct s as [valid image_id buffer_id collection vulkan_image vk_memory
                 vk_memory_info sk_surface acquire_event release_event
                 acquire_semaphore command_buffer_fence command_buffer wait
                 size_history size_history_index age pending].
  cbn in Hp. subst pending.
  unfold Reset, SemaphoreFromEvent, assign_acquire_semaphore,
    dispose_acquire_semaphore, invoke, semaphore_made.
  run. cbn. rewrite Ha. cbn. rewrite Hr. cbn.
  destruct command_buffer; cbn;
    destruct acquire_semaphore; cbn;
    (destruct (failed (sem_duplicate_status (reset_semaphore env))); cbn;
     [|destruct (failed (sem_create_result (reset_semaphore env))); cbn;
       [|destruct (failed (sem_import_result (reset_semaphore env)));
         cbn]]);
    rewrite <- ?app_assoc; cbn; reflexivity.
Qed.

(** What a surface that constructed valid holds for its fences: the events
    and the fence [CreateFences] made, no command buffer, the semaphore the
    constructor's own [Reset] made, and a wait set on the release event. *)
Lemma new_valid_fences (k : Z) (body : Callback -> M unit) (env : CtorEnv)
    (context : option GrDirectContext) (session : option Z)
    (size : SkISize) (buffer_id : Z) (before : list Event)
    (ran : Outcome unit) :
  ran = new_VulkanSurface k body env context session size buffer_id before ->
  valid_ (self (final ran)) = true ->
  acquire_event_ (self (final ran)) = fences_acquire_event (ctor_fences env)
  /\ release_event_ (self (final ran)) =
     fences_release_event (ctor_fences env)
  /\ command_buffer_fence_ (self (final ran)) =
     fences_command_buffer_fence (ctor_fences env)
  /\ command_buffer_ (self (final ran)) = None
  /\ acquire_semaphore_ (self (final ran)) =
     (if semaphore_made (reset_semaphore (ctor_reset env))
      then Some (sem_created (reset_semaphore (ctor_reset env)))
      else None)
  /\ wait_ (self (final ran)) =
     mkWait (fences_release_event (ctor_fences env)) ZX_EVENT_SIGNALED.
Proof.
  unfold new_VulkanSurface, VulkanSurface_ctor, AllocateDeviceMemory,
    CreateVulkanImage, SetupSkiaSurface, CreateFences, SemaphoreFromEvent,
    PushSessionImageSetupOps, Reset, assign_acquire_semaphore,
    dispose_acquire_semaphore, invoke, initial_surface,
    MakeFromBackendRenderTarget, semaphore_made.
  run. cbn. intros H.
  exec H.
  all: try match goal with
         | E : (0 =? 0) = false |- _ => cbv in E; discriminate E
         end.
  all: subst ran; cbn [final self trace valid_]; intros Hv;
    try discriminate Hv.
  all: cbn; repeat split; reflexivity.
Qed.

(** C9. A surface that constructed successfully for [size], once its fences
    are flushed to the session and the release signal is delivered with
    both events re-arming, is valid again with the size it had, holds no
    pending callback, and takes the next cycle. The delivery did the whole
    of [Reset] on the fences made at construction: it cleared the signal on
    the acquire and the release event (the two calls whose statuses are the
    re-arms), reset the command buffer fence, destroyed the acquire
    semaphore it held and made a new one from the acquire event, and armed
    the wait again, which is its last call. The surface is then the one
    constructed, with age zero and the new semaphore. In the next cycle a
    callback can be registered and the fences flushed, and the next
    delivery of the release signal runs that callback, after re-arming the
    wait, on an empty slot. *)
Theorem flush_release_round_trip (k : Z) (body : Callback -> M unit)
    (env : CtorEnv) (context : option GrDirectContext) (session : option Z)
    (size : SkISize) (buffer_id : Z) (before : list Event)
    (constructed flushed : Machine) (flush : FlushEnv) (reset : ResetEnv) :
  new_VulkanSurface k body env context session size buffer_id before =
    Done tt constructed ->
  valid_ (self constructed) = true ->
  FlushSessionAcquireAndReleaseEvents flush constructed = Done true flushed ->
  failed (reset_acquire_signal reset) = false ->
  failed (reset_release_signal reset) = false ->
  exists idle,
    OnHandleReady body ZX_OK ZX_EVENT_SIGNALED reset flushed = Done tt idle
    /\ valid_ (self idle) = true
    /\ GetSize constructed = Done size constructed
    /\ GetSize idle = Done size idle
    /\ pending_on_writes_committed_ (self idle) = None
    /\ invocations (trace idle) = invocations before
    /\ (forall callback,
          exists pending,
            SignalWritesFinished body (Some callback) idle = Done tt pending
            /\ pending_on_writes_committed_ (self pending) = Some callback)
    /\ (forall again,
          failed (flush_acquire_status again) = false ->
          failed (flush_release_status again) = false ->
          exists resubmitted,
            FlushSessionAcquireAndReleaseEvents again idle =
              Done true resubmitted
            /\ age_ (self resubmitted) = 0)
    /\ trace idle =
       trace flushed
       ++ [ZxEventSignal (fences_acquire_event (ctor_fences env))
             ZX_EVENT_SIGNALED 0 (reset_acquire_signal reset);
           ZxEventSignal (fences_release_event (ctor_fences env))
             ZX_EVENT_SIGNALED 0 (reset_release_signal reset);
           VkResetFences (fences_command_buffer_fence (ctor_fences env))
             (reset_reset_fences reset)]
       ++ (if semaphore_made (reset_semaphore (ctor_reset env))
           then [VkDestroySemaphore
                   (sem_created (reset_semaphore (ctor_reset env)))]
           else [])
       ++ ZxEventDuplicate (fences_acquire_event (ctor_fences env))
            (sem_duplicate_status (reset_semaphore reset))
            (sem_duplicate (reset_semaphore reset))
          :: (if failed (sem_duplicate_status (reset_semaphore reset))
              then []
              else
                VkCreateSemaphore (sem_create_result (reset_semaphore reset))
                  (sem_created (reset_semaphore reset))
                :: (if failed (sem_create_result (reset_semaphore reset))
                    then []
                    else
                      [VkImportSemaphoreZirconHandle
                         (sem_created (reset_semaphore reset))
                         (wrap32 (sem_duplicate (reset_semaphore reset)))
                         (sem_import_result (reset_semaphore reset))]))
       ++ [WaitBegin]
    /\ self idle =
       set_acquire_semaphore_
         (if semaphore_made (reset_semaphore reset)
          then Some (sem_created (reset_semaphore reset))
          else None)
         (set_age_ 0 (self constructed))
    /\ wait_ (self idle) =
       mkWait (fences_release_event (ctor_fences env)) ZX_EVENT_SIGNALED
    /\ (forall callback again next,
          failed (flush_acquire_status again) = false ->
          failed (flush_release_status again) = false ->
          exists resubmitted steps,
            (SignalWritesFinished body (Some callback) ;;
             FlushSessionAcquireAndReleaseEvents again) idle =
              Done true resubmitted
            /\ OnHandleReady body ZX_OK ZX_EVENT_SIGNALED next resubmitted =
               body callback
                 (mkMachine (self steps)
                    (trace steps ++ [CallbackInvoked callback]))
            /\ pending_on_writes_committed_ (self steps) = None
            /\ last (trace steps) = Some WaitBegin
            /\ invocations (trace steps) = invocations before).
Proof.
  intros Hnew Hv Hflush Ha Hr.
  destruct (new_runs k body env context session size buffer_id before _
              eq_refl) as (events & Ht & Hi & _ & Hfresh & Hvalid).
  destruct (new_valid_fences k body env context session size buffer_id
              before _ eq_refl) as (Hae & Hre & Hcf & Hcb & Hsem & Hw).
  { rewrite Hnew. exact Hv. }
  rewrite Hnew in Hvalid, Hfresh, Ht, Hae, Hre, Hcf, Hcb, Hsem, Hw.
  cbn [final] in Hvalid, Hfresh, Ht, Hae, Hre, Hcf, Hcb, Hsem, Hw.
  destruct (Hvalid Hv) as (_ & Hsk). destruct Hfresh as (_ & _ & _ & Hp).
  rewrite flush_runs in Hflush. cbv zeta in Hflush.
  destruct (failed (flush_acquire_status flush)); [discriminate|].
  destruct (failed (flush_release_status flush)); [discriminate|].
  inversion Hflush; subst flushed; clear Hflush.
  rewrite OnHandleReady_signalled.
  rewrite Reset_rearmed; [|exact Hp|exact Ha|exact Hr].
  eexists. split; [reflexivity|]. cbn.
  split; [exact Hv|].
  split; [rewrite GetSize_runs, Hv, Hsk; destruct size; reflexivity|].
  split; [rewrite GetSize_runs; cbn; rewrite Hv, Hsk; destruct size;
          reflexivity|].
  split; [reflexivity|].
  split.
  { rewrite Ht, !invocations_app, Hi. cbn. rewrite Hcb. cbn.
    destruct (acquire_semaphore_ (self constructed)); cbn;
      (destruct (failed (sem_duplicate_status (reset_semaphore reset)));
       cbn;
       [|destruct (failed (sem_create_result (reset_semaphore reset)));
         cbn]);
      rewrite ?app_nil_r; reflexivity. }
  split.
  { intros callback. rewrite signal_runs. cbn. rewrite Hv.
    eexists. split; reflexivity. }
  split.
  { intros again Ha' Hr'. rewrite flush_runs. cbv zeta. rewrite Ha', Hr'.
    eexists. split; reflexivity. }
  split.
  { rewrite Hae, Hre, Hcf, Hcb, Hsem. cbn.
    destruct (semaphore_made (reset_semaphore (ctor_reset env)));
      reflexivity. }
  split.
  { clear - Hp Hcb. destruct constructed as [s tr]. cbn in *.
    destruct s. cbn in *. subst. reflexivity. }
  split; [exact Hw|].
  intros callback again next Ha' Hr'.
  unfold bind. rewrite signal_runs. cbn. rewrite Hv.
  rewrite flush_runs. cbv zeta. rewrite Ha', Hr'. cbn.
  match goal with
  | |- context [Done true ?resubmitted] =>
      destruct (Reset_runs next resubmitted)
        as (revents & semaphore & Hri & _ & Hl & Hreset)
  end.
  cbv zeta in Hreset. destruct (Hreset body) as [_ Hb].
  cbn in Hb.
  eexists. eexists (mkMachine _ _). split; [reflexivity|].
  split; [rewrite OnHandleReady_signalled; exact Hb|]. cbn.
  split; [reflexivity|].
  split.
  { rewrite last_app, Hl. reflexivity. }
  rewrite !invocations_app, Hri, Ht, invocations_app, Hi. cbn.
  rewrite Hcb. cbn.
  destruct (acquire_semaphore_ (self constructed)); cbn;
    (destruct (failed (sem_duplicate_status (reset_semaphore reset)));
     cbn;
     [|destruct (failed (sem_create_result (reset_semaphore reset)));
       cbn]);
    rewrite ?app_nil_r; reflexivity.
Qed.

(** * The statements at a concrete run *)

Lemma no_effect_keeps_surface : keeps_surface no_effect.
Proof.
  intros callback m after H. unfold no_effect, ret in H.
  inversion H; subst; reflexivity.
Qed.

Lemma sample_constructs :
  new_VulkanSurface 3 no_effect sample_ctor_env (Some 1) (Some 1)
    sample_size 7 [] = Done tt sample_surface.
Proof. vm_compute. reflexivity. Qed.

Lemma sample_valid : valid_ (self sample_surface) = true.
Proof. vm_compute. reflexivity. Qed.

Lemma sample_consistent : consistent 3 (self sample_surface) = true.
Proof. vm_compute. reflexivity. Qed.

Lemma sample_idle :
  pending_on_writes_committed_ (self sample_surface) = None.
Proof. vm_compute. reflexivity. Qed.

Lemma sample_flushes :
  FlushSessionAcquireAndReleaseEvents sample_flush_env sample_surface =
  Done true sample_flushed.
Proof. vm_compute. reflexivity. Qed.

Lemma sample_performs :
  perform_all 3 no_effect sample_calls sample_surface = Done tt sample_used.
Proof. vm_compute. reflexivity. Qed.

Lemma sample_used_valid : valid_ (self sample_used) = true.
Proof. vm_compute. reflexivity. Qed.

Lemma sample_invalid_flag : valid_ (self sample_invalid) = false.
Proof. vm_compute. reflexivity. Qed.

Lemma sample_allocates :
  AllocateDeviceMemory sample_alloc_env (Some 1) sample_size 7 sample_start =
  Done true
    (final (AllocateDeviceMemory sample_alloc_env (Some 1) sample_size 7
              sample_start)).
Proof. vm_compute. reflexivity. Qed.

Example sample_surface_session :
  session_calls (trace sample_surface) =
  [SessionRegisterBufferCollection 7;
   SessionAllocResourceId 1;
   SessionEnqueue (NewCreateImage2Cmd 1 640 480 7 0)].
Proof. vm_compute. reflexivity. Qed.

Example sample_destruction :
  session_calls (trace (final (VulkanSurface_dtor sample_surface))) =
  [SessionRegisterBufferCollection 7;
   SessionAllocResourceId 1;
   SessionEnqueue (NewCreateImage2Cmd 1 640 480 7 0);
   SessionEnqueue (NewReleaseResourceCmd 1);
   SessionDeregisterBufferCollection 7].
Proof. vm_compute. reflexivity. Qed.

(** With an empty size nothing is acquired, and nothing released. *)
Example empty_size_acquires_nothing :
  let built :=
    final (new_VulkanSurface 3 no_effect sample_ctor_env (Some 1) (Some 1)
             (Make 0 480) 7 []) in
  valid_ (self built) = false
  /\ trace built = []
  /\ trace (final (VulkanSurface_dtor built)) = [WaitCancel].
Proof. vm_compute. repeat split. Qed.

(** Masks 6 and 9 share no memory type: the run stops at the check, before
    any memory is asked for. *)
Example empty_intersection_stops :
  exists stop,
    AllocateDeviceMemory
      (mkAllocEnv ZX_OK ZX_OK ZX_OK VK_SUCCESS 61 sample_image_env
         VK_SUCCESS 9 VK_SUCCESS 62 VK_SUCCESS true true)
      (Some 1) sample_size 7 sample_start = Fatal DCheckFailed stop
    /\ allocated_memory_types (trace stop) = [].
Proof. eexists. vm_compute. split; reflexivity. Qed.

Example sample_used_ages :
  age_ (self sample_used) = 0
  /\ size_history_ (self sample_used) =
     [Make 640 480; MakeEmpty; MakeEmpty]
  /\ size_history_index_ (self sample_used) = 1
  /\ invocations (trace sample_used) = [5%nat].
Proof. vm_compute. repeat split. Qed.

Lemma advance_witness :
  consistent 3 (self sample_surface) = true
  /\ exists first second third,
       AdvanceAndGetAge 3 sample_flushed = Done 1 first
       /\ AdvanceAndGetAge 3 first = Done 2 second
       /\ AdvanceAndGetAge 3 second = Done 3 third.
Proof.
  split; [exact sample_consistent|].
  destruct (advance_records_size_and_ages 3 sample_surface sample_consistent)
    as (size & after & _ & _ & _ & _ & _ & _ & _ & _ & Hflushed).
  exact (Hflushed sample_flush_env sample_flushed sample_flushes).
Defined.

Lemma double_registration_witness :
  valid_ (self sample_surface) = true
  /\ exists after,
       SignalWritesFinished no_effect (Some 1%nat) sample_surface =
         Done tt after
       /\ pending_on_writes_committed_ (self after) = Some 1%nat
       /\ trace after = trace sample_surface
       /\ SignalWritesFinished no_effect (Some 2%nat) after =
          Fatal DoubleRegistration after.
Proof.
  split; [exact sample_valid|].
  exact (proj2 (double_registration_is_fatal no_effect sample_surface
                  1%nat 2%nat sample_valid) sample_idle).
Defined.

Lemma signal_on_invalid_witness :
  valid_ (self sample_invalid) = false
  /\ SignalWritesFinished no_effect (Some 9%nat) sample_invalid =
     Done tt
       (mkMachine (self sample_invalid)
          (trace sample_invalid ++ [CallbackInvoked 9%nat])).
Proof.
  split; [exact sample_invalid_flag|].
  exact (proj1 (proj2 (signal_on_invalid_surface_calls_at_once no_effect
                         sample_invalid 9%nat sample_invalid_flag))).
Defined.

Lemma memory_type_witness :
  0 <= 6 < 2 ^ 32
  /\ 0 <= 12 < 2 ^ 32
  /\ exists after,
       AllocateDeviceMemory sample_alloc_env (Some 1) sample_size 7
         sample_start = Done true after
       /\ 0 <= memoryTypeIndex (vk_memory_info_ (self after)) < 32
       /\ Z.testbit 6 (memoryTypeIndex (vk_memory_info_ (self after))) = true
       /\ Z.testbit 12 (memoryTypeIndex (vk_memory_info_ (self after))) = true.
Proof.
  assert (0 <= 6 < 2 ^ 32) as H6 by lia.
  assert (0 <= 12 < 2 ^ 32) as H12 by lia.
  split; [exact H6|]. split; [exact H12|].
  eexists. split; [exact sample_allocates|].
  destruct (proj1 (proj2 (memory_type_is_in_the_intersection sample_alloc_env
                            (Some 1) sample_size 7 sample_start H6 H12))
              _ sample_allocates) as (Hi & Hd & Hc & _).
  split; [exact Hi|]. split; [exact Hd|exact Hc].
Defined.

Lemma GetSize_witness :
  keeps_surface no_effect
  /\ new_VulkanSurface 3 no_effect sample_ctor_env (Some 1) (Some 1)
       sample_size 7 [] = Done tt sample_surface
  /\ valid_ (self sample_surface) = true
  /\ perform_all 3 no_effect sample_calls sample_surface = Done tt sample_used
  /\ GetSize sample_surface = Done sample_size sample_surface
  /\ GetSize sample_used = Done sample_size sample_used.
Proof.
  split; [exact no_effect_keeps_surface|].
  split; [exact sample_constructs|]. split; [exact sample_valid|].
  split; [exact sample_performs|].
  destruct (GetSize_is_the_requested_size 3 no_effect sample_ctor_env
              (Some 1) (Some 1) sample_size 7 [] sample_calls
              sample_surface sample_used no_effect_keeps_surface
              sample_constructs sample_valid sample_performs)
    as (H1 & H2 & _).
  rewrite sample_used_valid in H2. split; [exact H1|exact H2].
Defined.

Lemma round_trip_witness :
  new_VulkanSurface 3 no_effect sample_ctor_env (Some 1) (Some 1)
    sample_size 7 [] = Done tt sample_surface
  /\ valid_ (self sample_surface) = true
  /\ FlushSessionAcquireAndReleaseEvents sample_flush_env sample_surface =
     Done true sample_flushed
  /\ failed (reset_acquire_signal sample_reset_env) = false
  /\ failed (reset_release_signal sample_reset_env) = false
  /\ exists idle,
       OnHandleReady no_effect ZX_OK ZX_EVENT_SIGNALED sample_reset_env
         sample_flushed = Done tt idle
       /\ valid_ (self idle) = true
       /\ GetSize idle = Done sample_size idle
       /\ pending_on_writes_committed_ (self idle) = None.
Proof.
  split; [exact sample_constructs|]. split; [exact sample_valid|].
  split; [exact sample_flushes|].
  split; [reflexivity|]. split; [reflexivity|].
  destruct (flush_release_round_trip 3 no_effect sample_ctor_env (Some 1)
              (Some 1) sample_size 7 [] sample_surface sample_flushed
              sample_flush_env sample_reset_env sample_constructs
              sample_valid sample_flushes eq_refl eq_refl)
    as (idle & H1 & H2 & _ & H4 & H5 & _).
  exists idle. repeat split; assumption.
Defined.

(** The constructor sets [valid_] after its own [Reset]: a re-arming
    failure met there does not leave the new surface invalid. *)
Example construction_sets_valid_after_reset :
  valid_
    (self
       (final
          (new_VulkanSurface 3 no_effect
             (mkCtorEnv sample_alloc_env sample_fences_env 1
                (mkResetEnv 1 ZX_OK VK_SUCCESS VK_SUCCESS
                   sample_semaphore_env))
             (Some 1) (Some 1) sample_size 7 []))) = true.
Proof. vm_compute. reflexivity. Qed.

(** The id zero is acquired and never released. This surface constructs
    valid: its collection is registered with the session under buffer id
    zero and the session allocates resource id zero for its image. The
    destructor then makes no call to the session: the resource is not
    released and the collection is not deregistered. *)
Lemma zero_ids_are_never_released :
  valid_ (self sample_zero_ids) = true
  /\ session_calls (trace sample_zero_ids) =
     [SessionRegisterBufferCollection 0;
      SessionAllocResourceId 0;
      SessionEnqueue (NewCreateImage2Cmd 0 640 480 0 0)]
  /\ session_calls (trace (final (VulkanSurface_dtor sample_zero_ids))) =
     [SessionRegisterBufferCollection 0;
      SessionAllocResourceId 0;
      SessionEnqueue (NewCreateImage2Cmd 0 640 480 0 0)].
Proof. vm_compute. repeat split; reflexivity. Qed.

(** * Further properties of the methods *)

Lemma destroyed_semaphores_app (l1 l2 : list Event) :
  destroyed_semaphores (l1 ++ l2) =
  destroyed_semaphores l1 ++ destroyed_semaphores l2.
Proof.
  induction l1 as [|e l1 IH]; [reflexivity|].
  destruct e; cbn; rewrite ?IH; reflexivity.
Qed.

Lemma fence_waits_app (l1 l2 : list Event) :
  fence_waits (l1 ++ l2) = fence_waits l1 ++ fence_waits l2.
Proof.
  induction l1 as [|e l1 IH]; [reflexivity|].
  destruct e; cbn; rewrite ?IH; reflexivity.
Qed.

Lemma wait_arms_app (l1 l2 : list Event) :
  wait_arms (l1 ++ l2) = (wait_arms l1 + wait_arms l2)%nat.
Proof.
  induction l1 as [|e l1 IH]; [reflexivity|].
  destruct e; cbn; rewrite ?IH; reflexivity.
Qed.

(** ** SemaphoreFromEvent *)



(** ** CreateFences *)

(** X2. [CreateFences] returns true exactly when the acquire event is
    created, its semaphore is made and the release event is created, trying
    them in that order and stopping at the first failure: its calls are
    exactly the creation of the acquire event; then, only if that
    succeeded, the calls of [SemaphoreFromEvent] on that event and the
    destruction of the semaphore held before; then, only if a semaphore was
    made, the creation of the release event; and then, only if that
    succeeded, the creation of the command buffer fence. On success the
    two events, the semaphore and the new command buffer fence are held. On
    failure no command buffer fence is created, the one held staying as
    it was, though the acquire event (and its semaphore) stay held when
    they were obtained; when the semaphore fails, or the acquire event
    before it, no release event is created or stored. It never touches
    validity, the ids, the Skia surface, the pending callback, the age or
    the size history, and calls neither the session nor a callback. *)
Theorem fences_are_created_in_order (env : FencesEnv) (m : Machine) :
  let made := semaphore_made (fences_semaphore env) in
  let ok :=
    negb (failed (fences_acquire_status env)) && made
    && negb (failed (fences_release_status env)) in
  exists after events,
    CreateFences env m = Done ok after
    /\ trace after = trace m ++ events
    /\ head events =
       Some (ZxEventCreate (fences_acquire_status env)
               (fences_acquire_event env))
    /\ session_calls events = []
    /\ invocations events = []
    /\ (valid_ (self after) = valid_ (self m)
        /\ image_id_ (self after) = image_id_ (self m)
        /\ buffer_id_ (self after) = buffer_id_ (self m)
        /\ sk_surface_ (self after) = sk_surface_ (self m)
        /\ pending_on_writes_committed_ (self after) =
           pending_on_writes_committed_ (self m)
        /\ age_ (self after) = age_ (self m)
        /\ size_history_ (self after) = size_history_ (self m)
        /\ size_history_index_ (self after) = size_history_index_ (self m))
    /\ (if failed (fences_acquire_status env)
        then acquire_semaphore_ (self after) = acquire_semaphore_ (self m)
             /\ length events = 1%nat
        else acquire_event_ (self after) = fences_acquire_event env
             /\ acquire_semaphore_ (self after) =
                (if made then Some (sem_created (fences_semaphore env))
                 else None))
    /\ (if ok
        then release_event_ (self after) = fences_release_event env
             /\ command_buffer_fence_ (self after) =
                fences_command_buffer_fence env
             /\ last events =
                Some (VkCreateFence (fences_command_buffer_fence env))
        else command_buffer_fence_ (self after) =
             command_buffer_fence_ (self m))
    /\ events =
       ZxEventCreate (fences_acquire_status env) (fences_acquire_event env)
       :: (if failed (fences_acquire_status env)
           then []
           else
             (ZxEventDuplicate (fences_acquire_event env)
                (sem_duplicate_status (fences_semaphore env))
                (sem_duplicate (fences_semaphore env))
              :: (if failed (sem_duplicate_status (fences_semaphore env))
                  then []
                  else
                    VkCreateSemaphore
                      (sem_create_result (fences_semaphore env))
                      (sem_created (fences_semaphore env))
                    :: (if failed (sem_create_result (fences_semaphore env))
                        then []
                        else
                          [VkImportSemaphoreZirconHandle
                             (sem_created (fences_semaphore env))
                             (wrap32 (sem_duplicate (fences_semaphore env)))
                             (sem_import_result (fences_semaphore env))])))
             ++ match acquire_semaphore_ (self m) with
                | Some held => [VkDestroySemaphore held]
                | None => []
                end
             ++ (if made
                 then
                   ZxEventCreate (fences_release_status env)
                     (fences_release_event env)
                   :: (if failed (fences_release_status env)
                       then []
                       else
                         [VkCreateFence (fences_command_buffer_fence env)])
                 else []))
    /\ (negb (failed (fences_acquire_status env)) && made = false ->
        release_event_ (self after) = release_event_ (self m)).
Proof.
  intros made ok. subst made ok. unfold semaphore_made.
  remember (CreateFences env m) as ran eqn:H.
  unfold CreateFences, SemaphoreFromEvent, assign_acquire_semaphore,
    dispose_acquire_semaphore in H.
  run. cbn in H.
  exec H.
  all: subst ran; cbn; do 2 eexists; (split; [reflexivity|]).
  all: split; [split_trace|].
  all: cbn; repeat split; try reflexivity.
  all: rewrite ?last_cons; try reflexivity.
  all: intros Hno; discriminate Hno.
Qed.

(** ** CreateVulkanImage *)

(** X3. For a size that is not empty, [CreateVulkanImage] first sets the
    image constraints on the buffer collection and only then creates the
    image; it returns true exactly when both succeed, and asks for the
    memory requirements only then. The image it describes has the extent of
    the requested size (for dimensions that fit 32 bits) and depth one, and
    is bound to the collection the surface holds. It changes
    no member and calls neither the session nor a callback. For an empty
    size it stops at its debug check before any call. *)
Theorem image_follows_constraints (env : ImageEnv) (size : SkISize)
    (m : Machine) :
  (isEmpty size = true ->
   CreateVulkanImage env size m = Fatal DCheckFailed m)
  /\ (isEmpty size = false ->
      fWidth size < 2 ^ 32 ->
      fHeight size < 2 ^ 32 ->
      let ok :=
        negb (failed (image_constraints_result env))
        && negb (failed (image_create_result env)) in
      exists image events,
        CreateVulkanImage env size m =
          Done (ok, image) (mkMachine (self m) (trace m ++ events))
        /\ ici_extent_width (vk_image_create_info image) = fWidth size
        /\ ici_extent_height (vk_image_create_info image) = fHeight size
        /\ ici_extent_depth (vk_image_create_info image) = 1
        /\ ici_collection (vk_image_create_info image) =
           collection_ (self m)
        /\ head events =
           Some (VkSetBufferCollectionConstraints (collection_ (self m))
                   (vk_image_create_info image)
                   (image_constraints_result env))
        /\ session_calls events = []
        /\ invocations events = []
        /\ (if ok
            then vk_image image = Some (image_created env)
                 /\ vk_memory_requirements image = image_requirements env
                 /\ events =
                    [VkSetBufferCollectionConstraints (collection_ (self m))
                       (vk_image_create_info image)
                       (image_constraints_result env);
                     VkCreateImage (vk_image_create_info image)
                       (image_create_result env) (image_created env);
                     VkGetImageMemoryRequirements
                       (Some (image_created env))]
            else vk_image image = None
                 /\ (length events <= 2)%nat
                 /\ (failed (image_constraints_result env) = true ->
                     length events = 1%nat))).
Proof.
  split.
  - intros He. unfold CreateVulkanImage. run. rewrite He. reflexivity.
  - intros He Hw Hh ok. subst ok.
    assert (wrap32 (fWidth size) = fWidth size) as Ew.
    { unfold wrap32. apply Z.mod_small. unfold isEmpty in He.
      apply orb_false_iff in He. lia. }
    assert (wrap32 (fHeight size) = fHeight size) as Eh.
    { unfold wrap32. apply Z.mod_small. unfold isEmpty in He.
      apply orb_false_iff in He. lia. }
    remember (CreateVulkanImage env size m) as ran eqn:H.
    unfold CreateVulkanImage in H. run. rewrite He in H. cbn in H.
    exec H.
    all: subst ran; do 2 eexists; (split; [f_equal; split_trace|]).
    all: cbn; rewrite ?Ew, ?Eh; repeat split; auto.
    all: intros; discriminate.
Qed.

(** ** PushSessionImageSetupOps *)

(** X4. [PushSessionImageSetupOps] asks the session for a resource id only
    while [image_id_] is zero, keeps the id it has otherwise, and enqueues
    one create-image command carrying that id, the dimensions of the Skia
    surface, [buffer_id_] and index zero. Run again after an id other than
    zero was allocated, it allocates nothing and enqueues the command for
    the same id. Without a Skia surface it stops on the null surface, after
    any allocation. *)
Theorem image_id_is_allocated_once (fresh : Z) (m : Machine) :
  let id := if image_id_ (self m) =? 0 then fresh else image_id_ (self m) in
  let allocation :=
    if image_id_ (self m) =? 0 then [SessionAllocResourceId fresh] else [] in
  match sk_surface_ (self m) with
  | None =>
      PushSessionImageSetupOps fresh m =
      Fatal NullDereference
        (mkMachine (set_image_id_ id (self m)) (trace m ++ allocation))
  | Some surface =>
      let command :=
        SessionEnqueue
          (NewCreateImage2Cmd id (surface_width surface)
             (surface_height surface) (buffer_id_ (self m)) 0) in
      let once :=
        mkMachine (set_image_id_ id (self m))
          (trace m ++ allocation ++ [command]) in
      PushSessionImageSetupOps fresh m = Done tt once
      /\ (id <> 0 ->
          forall other,
            PushSessionImageSetupOps other once =
            Done tt (mkMachine (self once) (trace once ++ [command])))
  end.
Proof.
  destruct m as [s tr].
  destruct s as [valid image_id buffer_id collection vulkan_image vk_memory
                 vk_memory_info sk_surface acquire_event release_event
                 acquire_semaphore command_buffer_fence command_buffer wait
                 size_history size_history_index age pending].
  unfold PushSessionImageSetupOps. run. cbn.
  destruct (Z.eqb_spec image_id 0) as [E|E]; cbn;
    destruct sk_surface as [surface|]; cbn;
    rewrite <- ?app_assoc, ?app_nil_r; try reflexivity.
  - split; [reflexivity|]. intros Hf other.
    destruct (Z.eqb_spec fresh 0) as [E'|E']; [contradiction|].
    cbn. rewrite <- ?app_assoc. reflexivity.
  - split; [reflexivity|]. intros _ other.
    destruct (Z.eqb_spec image_id 0) as [E'|E']; [contradiction|].
    cbn. rewrite <- ?app_assoc. reflexivity.
Qed.

(** ** AllocateDeviceMemory *)


(** X6. What the constructor does with inputs it cannot use. With a null
    session it stops at its debug check before anything is done. With an
    empty size it returns at once: no collaborator is called and every
    member is as declared, so the surface is not valid. With a null context
    it never yields a valid surface, whatever the collaborators answer, and
    no Skia surface is ever made; [AllocateDeviceMemory] itself then never
    returns true. *)
Theorem constructor_rejects_unusable_inputs (k : Z)
    (body : Callback -> M unit) (env : CtorEnv)
    (context : option GrDirectContext) (session : Z) (size : SkISize)
    (buffer_id : Z) (before : list Event) :
  new_VulkanSurface k body env context None size buffer_id before =
    Fatal DCheckFailed (mkMachine (initial_surface k) before)
  /\ (isEmpty size = true ->
      new_VulkanSurface k body env context (Some session) size buffer_id
        before = Done tt (mkMachine (initial_surface k) before))
  /\ (let built :=
        final (new_VulkanSurface k body env None (Some session) size
                 buffer_id before) in
      valid_ (self built) = false
      /\ sk_surface_ (self built) = None
      /\ image_id_ (self built) = 0)
  /\ (forall m,
        let ran :=
          AllocateDeviceMemory (ctor_alloc env) None size buffer_id m in
        sk_surface_ (self (final ran)) = sk_surface_ (self m)
        /\ match ran with
           | Done ok _ => ok = false
           | Fatal why _ => why = DCheckFailed
           end).
Proof.
  split; [reflexivity|]. split; [|split].
  - intros He. unfold new_VulkanSurface, VulkanSurface_ctor,
      AllocateDeviceMemory. run. cbn. rewrite He. reflexivity.
  - cbv zeta.
    remember (new_VulkanSurface k body env None (Some session) size
                buffer_id before) as ran eqn:H.
    unfold new_VulkanSurface, VulkanSurface_ctor, AllocateDeviceMemory,
      CreateVulkanImage, SetupSkiaSurface, initial_surface in H.
    run. cbn in H. exec H.
    all: subst ran; cbn; repeat split.
  - intros m. cbv zeta.
    remember (AllocateDeviceMemory (ctor_alloc env) None size buffer_id m)
      as ran eqn:H.
    unfold AllocateDeviceMemory, CreateVulkanImage, SetupSkiaSurface in H.
    run. cbn in H. exec H.
    all: subst ran; cbn; repeat split.
Qed.

Lemma ctz_pos_lowest (p : positive) (j : Z) :
  0 <= j < ctz_pos p -> Z.testbit (Zpos p) j = false.
Proof.
  revert j. induction p as [q IH|q IH|]; cbn [ctz_pos]; intros j Hj;
    try lia.
  change (Zpos q~0) with (2 * Zpos q).
  destruct (Z.eq_dec j 0) as [->|Hn].
  - apply Z.testbit_even_0.
  - replace j with (Z.succ (j - 1)) by lia.
    rewrite Z.double_bits_succ. apply IH. lia.
Qed.

(** X7. Of the memory types that both the driver and the collection
    accept, [AllocateDeviceMemory] takes the one with the lowest index: no
    type below the one it asks for is accepted by both. *)
Theorem lowest_common_memory_type_is_chosen (env : AllocEnv)
    (context : option GrDirectContext) (size : SkISize) (buffer_id : Z)
    (m after : Machine) :
  let driver_types :=
    req_memoryTypeBits (image_requirements (alloc_image env)) in
  let collection_types := alloc_properties_memoryTypeBits env in
  0 <= driver_types < 2 ^ 32 ->
  0 <= collection_types < 2 ^ 32 ->
  AllocateDeviceMemory env context size buffer_id m = Done true after ->
  forall lower,
    0 <= lower < memoryTypeIndex (vk_memory_info_ (self after)) ->
    Z.testbit driver_types lower && Z.testbit collection_types lower = false.
Proof.
  intros driver_types collection_types Hd Hc Hrun lower Hl.
  destruct (alloc_runs env context size buffer_id m _ eq_refl)
    as (_ & Hdone & _).
  destruct (Hdone after Hrun) as (Hz & Hi & _).
  fold driver_types collection_types in Hz, Hi.
  rewrite Hi in Hl. rewrite <- Z.land_spec.
  apply Z.eqb_neq in Hz.
  pose proof (Z.land_nonneg driver_types collection_types) as Hn.
  destruct (Z.land driver_types collection_types) as [|p|p] eqn:E;
    [congruence| |lia].
  unfold builtin_ctz, wrap32 in Hl.
  destruct (ctz_pos_bit p) as [Hp _].
  destruct (Z_lt_ge_dec (ctz_pos p) (2 ^ 32)) as [Hs|Hb].
  - rewrite Z.mod_small in Hl by lia. apply ctz_pos_lowest. exact Hl.
  - apply ctz_pos_lowest. pose proof (Z.mod_le (ctz_pos p) (2 ^ 32)). lia.
Qed.

(** ** What makes a new surface valid *)

Lemma new_valid_eq (k : Z) (body : Callback -> M unit) (env : CtorEnv)
    (context : option GrDirectContext) (session : Z) (size : SkISize)
    (buffer_id : Z) (before : list Event) :
  valid_
    (self (final (new_VulkanSurface k body env context (Some session) size
                    buffer_id before))) =
  match AllocateDeviceMemory (ctor_alloc env) context size buffer_id
          (mkMachine (initial_surface k) before) with
  | Done true allocated =>
      match CreateFences (ctor_fences env) allocated with
      | Done true _ => true
      | _ => false
      end
  | _ => false
  end.
Proof.
  remember (new_VulkanSurface k body env context (Some session) size
              buffer_id before) as ran eqn:H.
  unfold new_VulkanSurface, VulkanSurface_ctor, AllocateDeviceMemory,
    CreateVulkanImage, SetupSkiaSurface, CreateFences, SemaphoreFromEvent,
    PushSessionImageSetupOps, Reset, assign_acquire_semaphore,
    dispose_acquire_semaphore, invoke, initial_surface,
    MakeFromBackendRenderTarget in H.
  run. cbn in H.
  exec H.
  all: try match goal with
         | E : (0 =? 0) = false |- _ => cbv in E; discriminate E
         end.
  all: subst ran; cbn [final self valid_].
  all: unfold AllocateDeviceMemory, CreateVulkanImage, SetupSkiaSurface,
         CreateFences, SemaphoreFromEvent, assign_acquire_semaphore,
         dispose_acquire_semaphore, initial_surface,
         MakeFromBackendRenderTarget.
  all: run; cbn.
  all: repeat match goal with
         | E : ?b = _ |- context [?b] => rewrite E; cbn
         end.
  all: reflexivity.
Qed.

(** X8. A new surface is valid exactly when [AllocateDeviceMemory] and then
    [CreateFences] both return true. Nothing after them decides it: the
    constructor assigns the flag after its own [Reset], so what the
    re-arming of the events, the fence calls or the semaphore answer there,
    and which resource id the session hands out, make no difference. *)
Theorem construction_is_valid_iff_allocated_and_fenced (k : Z)
    (body : Callback -> M unit) (env : CtorEnv)
    (context : option GrDirectContext) (session : Z) (size : SkISize)
    (buffer_id : Z) (before : list Event) :
  let built :=
    final (new_VulkanSurface k body env context (Some session) size
             buffer_id before) in
  (valid_ (self built) = true <->
   exists allocated fenced,
     AllocateDeviceMemory (ctor_alloc env) context size buffer_id
       (mkMachine (initial_surface k) before) = Done true allocated
     /\ CreateFences (ctor_fences env) allocated = Done true fenced)
  /\ forall other_id other_reset,
       valid_
         (self
            (final
               (new_VulkanSurface k body
                  (mkCtorEnv (ctor_alloc env) (ctor_fences env) other_id
                     other_reset)
                  context (Some session) size buffer_id before))) =
       valid_ (self built).
Proof.
  intros built. subst built. split.
  - rewrite new_valid_eq.
    destruct (AllocateDeviceMemory (ctor_alloc env) context size buffer_id
                (mkMachine (initial_surface k) before))
      as [[|] allocated|why stop].
    + destruct (CreateFences (ctor_fences env) allocated)
        as [[|] fenced|why stop] eqn:E.
      * split; [intros _; eauto|intros _; reflexivity].
      * split; [discriminate|]. intros (a & f & Ha & Hf).
        inversion Ha; subst a. rewrite Hf in E. discriminate E.
      * split; [discriminate|]. intros (a & f & Ha & Hf).
        inversion Ha; subst a. rewrite Hf in E. discriminate E.
    + split; [discriminate|]. intros (a & f & Ha & _). discriminate.
    + split; [discriminate|]. intros (a & f & Ha & _). discriminate.
  - intros other_id other_reset. rewrite !new_valid_eq. reflexivity.
Qed.

(** ** The steps of Reset *)

(** X9. The steps of [Reset] (its callback set aside) never stop and touch
    only the fences and the slot. [Reset] waits on the command buffer fence
    exactly when a command buffer is outstanding, and drops that buffer; it
    resets the fence in every case; it destroys the acquire semaphore it
    held and holds afterwards the one [SemaphoreFromEvent] makes from the
    acquire event, or none when that fails, which does not cost the surface
    its validity; and it arms the wait once. The ids, the Skia surface, the
    age, the size history, the events and the wait's object are as before,
    and the session is not called. *)
Theorem reset_touches_only_fences_and_slot (env : ResetEnv) (m : Machine) :
  exists after events,
    Reset no_effect env m = Done tt after
    /\ trace after = trace m ++ events
    /\ fence_waits events =
       match command_buffer_ (self m) with
       | Some _ => [command_buffer_fence_ (self m)]
       | None => []
       end
    /\ In (VkResetFences (command_buffer_fence_ (self m))
             (reset_reset_fences env)) events
    /\ destroyed_semaphores events =
       match acquire_semaphore_ (self m) with
       | Some held => [held]
       | None => []
       end
    /\ acquire_semaphore_ (self after) =
       (if semaphore_made (reset_semaphore env)
        then Some (sem_created (reset_semaphore env))
        else None)
    /\ command_buffer_ (self after) = None
    /\ pending_on_writes_committed_ (self after) = None
    /\ valid_ (self after) =
       (if failed (reset_acquire_signal env)
           || failed (reset_release_signal env)
        then false else valid_ (self m))
    /\ wait_arms events = 1%nat
    /\ session_calls events = []
    /\ (image_id_ (self after) = image_id_ (self m)
        /\ buffer_id_ (self after) = buffer_id_ (self m)
        /\ sk_surface_ (self after) = sk_surface_ (self m)
        /\ age_ (self after) = age_ (self m)
        /\ size_history_ (self after) = size_history_ (self m)
        /\ size_history_index_ (self after) = size_history_index_ (self m)
        /\ acquire_event_ (self after) = acquire_event_ (self m)
        /\ release_event_ (self after) = release_event_ (self m)
        /\ command_buffer_fence_ (self after) = command_buffer_fence_ (self m)
        /\ wait_ (self after) = wait_ (self m)
        /\ vk_memory_ (self after) = vk_memory_ (self m)
        /\ collection_ (self after) = collection_ (self m)).
Proof.
  unfold semaphore_made.
  remember (Reset no_effect env m) as ran eqn:H.
  unfold Reset, SemaphoreFromEvent, assign_acquire_semaphore,
    dispose_acquire_semaphore, invoke, no_effect in H.
  run. cbn in H.
  exec H.
  all: try discriminate.
  all: subst ran; do 2 eexists; (split; [reflexivity|]).
  all: split; [split_trace|].
  all: cbn; repeat split; auto; cbn; intuition reflexivity.
Qed.

(** ** The size history as a ring *)

Lemma GetSize_same (m m' : Machine) (size : SkISize) :
  valid_ (self m') = valid_ (self m) ->
  sk_surface_ (self m') = sk_surface_ (self m) ->
  GetSize m = Done size m ->
  GetSize m' = Done size m'.
Proof.
  intros Hv Hk. rewrite !GetSize_runs, Hv, Hk.
  destruct (valid_ (self m)); [destruct (sk_surface_ (self m))|];
    intros H; inversion H; reflexivity.
Qed.

Lemma advance_step (k : Z) (body : Callback -> M unit) (m : Machine)
    (size : SkISize) :
  consistent k (self m) = true ->
  GetSize m = Done size m ->
  exists next,
    perform k body CallAdvanceAndGetAge m = Done tt next
    /\ consistent k (self next) = true
    /\ GetSize next = Done size next
    /\ trace next = trace m
    /\ size_history_index_ (self next) =
       (size_history_index_ (self m) + 1) mod k
    /\ age_ (self next) = wrap64 (age_ (self m) + 1)
    /\ size_history_ (self next) =
       <[Z.to_nat (size_history_index_ (self m)) := size]>
         (size_history_ (self m)).
Proof.
  intros Hc Hs.
  destruct (consistent_facts k _ Hc) as (Hi & Hl & Hv & Ha).
  destruct (advance_consistent k m Hc) as (next & Hrun & _ & Hnext).
  pose proof (advance_runs k m size Hi Hs) as Hexact.
  rewrite Hexact in Hrun. apply (f_equal final) in Hrun.
  cbn [final] in Hrun. subst next.
  eexists. cbn [perform]. unfold bind. rewrite Hexact.
  split; [reflexivity|]. split; [exact Hnext|].
  split; [apply (GetSize_same m); [| |exact Hs]; reflexivity|].
  repeat split.
Qed.

Lemma advance_many (k : Z) (body : Callback -> M unit) (n : nat) :
  forall (m : Machine) (size : SkISize),
    consistent k (self m) = true ->
    GetSize m = Done size m ->
    exists after,
      perform_all k body (replicate n CallAdvanceAndGetAge) m = Done tt after
      /\ consistent k (self after) = true
      /\ GetSize after = Done size after
      /\ trace after = trace m
      /\ size_history_index_ (self after) =
         (size_history_index_ (self m) + Z.of_nat n) mod k
      /\ age_ (self after) = wrap64 (age_ (self m) + Z.of_nat n)
      /\ (forall j : nat,
            size_history_ (self after) !! j = Some size
            \/ size_history_ (self after) !! j = size_history_ (self m) !! j)
      /\ (forall t,
            0 <= t < Z.of_nat n ->
            size_history_ (self after)
              !! Z.to_nat ((size_history_index_ (self m) + t) mod k) =
            Some size).
Proof.
  induction n as [|n IH]; intros m size Hc Hs.
  - exists m. cbn.
    destruct (consistent_facts k _ Hc) as (Hi & Hl & Hv & Ha).
    split; [reflexivity|]. split; [exact Hc|]. split; [exact Hs|].
    split; [reflexivity|].
    split; [rewrite Z.add_0_r, Z.mod_small by lia; reflexivity|].
    split; [unfold wrap64; rewrite Z.add_0_r, Z.mod_small by lia;
            reflexivity|].
    split; [auto|]. intros t Ht. lia.
  - destruct (consistent_facts k _ Hc) as (Hi & Hl & Hv & Ha).
    destruct (advance_step k body m size Hc Hs)
      as (next & Hrun & Hcn & Hsn & Htn & Hin & Han & Hhn).
    destruct (IH next size Hcn Hsn)
      as (after & Hall & Hca & Hsa & Hta & Hia & Haa & Hkeep & Hfill).
    exists after.
    change (replicate (S n) CallAdvanceAndGetAge)
      with (CallAdvanceAndGetAge :: replicate n CallAdvanceAndGetAge).
    cbn [perform_all]. unfold bind at 1.
    rewrite Hrun. split; [exact Hall|]. split; [exact Hca|].
    split; [exact Hsa|]. split; [congruence|].
    split.
    { rewrite Hia, Hin, Z.add_mod_idemp_l by lia. f_equal. lia. }
    split.
    { rewrite Haa, Han. unfold wrap64.
      rewrite Z.add_mod_idemp_l by lia. f_equal. lia. }
    assert (size_history_ (self next)
              !! Z.to_nat (size_history_index_ (self m)) = Some size)
      as Hslot.
    { rewrite Hhn. apply list_lookup_insert_eq. lia. }
    split.
    { intros j. destruct (Hkeep j) as [Hj|Hj]; [left; exact Hj|].
      rewrite Hj, Hhn.
      destruct (Nat.eq_dec (Z.to_nat (size_history_index_ (self m))) j)
        as [<-|Hne].
      - left. apply list_lookup_insert_eq. lia.
      - right. apply list_lookup_insert_ne. exact Hne. }
    intros t Ht. destruct (Z.eq_dec t 0) as [->|Hpos].
    + rewrite Z.add_0_r, Z.mod_small by lia.
      destruct (Hkeep (Z.to_nat (size_history_index_ (self m))))
        as [Hj|Hj]; [exact Hj|]. rewrite Hj. exact Hslot.
    + specialize (Hfill (t - 1)).
      rewrite Hin, Z.add_mod_idemp_l in Hfill by lia.
      replace (size_history_index_ (self m) + 1 + (t - 1))
        with (size_history_index_ (self m) + t) in Hfill by lia.
      apply Hfill. lia.
Qed.

(** X10. The size history is a ring. On a surface whose bookkeeping is
    consistent, any number of [AdvanceAndGetAge] calls in a row return,
    move the ring index on by that number modulo [kSizeHistorySize], add
    that number to the age (modulo its 64 bits) and call nothing. Once the
    calls are at least as many as the history is long, every slot holds the
    current size; after exactly a full turn the index is back where it
    was. *)
Theorem size_history_fills_after_a_full_turn (k : Z)
    (body : Callback -> M unit) (n : nat) (m : Machine) :
  consistent k (self m) = true ->
  exists size after,
    GetSize m = Done size m
    /\ perform_all k body (replicate n CallAdvanceAndGetAge) m = Done tt after
    /\ trace after = trace m
    /\ size_history_index_ (self after) =
       (size_history_index_ (self m) + Z.of_nat n) mod k
    /\ age_ (self after) = wrap64 (age_ (self m) + Z.of_nat n)
    /\ (k <= Z.of_nat n ->
        size_history_ (self after) = replicate (Z.to_nat k) size)
    /\ (Z.of_nat n = k ->
        size_history_index_ (self after) = size_history_index_ (self m)).
Proof.
  intros Hc. destruct (GetSize_consistent k m Hc) as [size Hs].
  destruct (consistent_facts k _ Hc) as (Hi & Hl & Hv & Ha).
  destruct (advance_many k body n m size Hc Hs)
    as (after & Hall & Hca & _ & Hta & Hia & Haa & _ & Hfill).
  destruct (consistent_facts k _ Hca) as (_ & Hla & _ & _).
  exists size, after. split; [exact Hs|]. split; [exact Hall|].
  split; [exact Hta|]. split; [exact Hia|]. split; [exact Haa|]. split.
  - intros Hn. apply list_eq. intros j.
    destruct (Nat.lt_ge_cases j (Z.to_nat k)) as [Hlt|Hge].
    + rewrite lookup_replicate_2 by exact Hlt.
      specialize (Hfill ((Z.of_nat j - size_history_index_ (self m)) mod k)).
      assert ((size_history_index_ (self m)
               + (Z.of_nat j - size_history_index_ (self m)) mod k) mod k =
              Z.of_nat j) as E.
      { rewrite Z.add_mod_idemp_r, Zplus_minus by lia.
        apply Z.mod_small. lia. }
      rewrite E, Nat2Z.id in Hfill. apply Hfill.
      pose proof (Z.mod_pos_bound
                    (Z.of_nat j - size_history_index_ (self m)) k).
      lia.
    + rewrite !lookup_ge_None_2; [reflexivity| |].
      * rewrite length_replicate. exact Hge.
      * lia.
  - intros Hn. rewrite Hia, Hn.
    rewrite <- (Z.mul_1_l k) at 1. rewrite Z.mod_add by lia.
    apply Z.mod_small. lia.
Qed.

(** ** A frame with a completion callback *)

(** X11. One frame on a valid surface with an empty slot. Registering a
    callback and flushing the fences can be done in either order and leave
    the same machine: the callback pending, the age zero. A delivery of the
    wait that reports an error changes nothing, the callback staying
    pending. The delivery of the release signal then does the steps of
    [Reset] and calls that callback, once and last, on a surface whose slot
    is empty again, whose age is still zero, whose Skia surface is the
    same, and which is valid exactly when both events re-armed. *)
Theorem frame_cycle_calls_back_once (body : Callback -> M unit)
    (m : Machine) (callback : Callback) (flush : FlushEnv)
    (reset : ResetEnv) :
  valid_ (self m) = true ->
  pending_on_writes_committed_ (self m) = None ->
  failed (flush_acquire_status flush) = false ->
  failed (flush_release_status flush) = false ->
  exists submitted steps,
    (SignalWritesFinished body (Some callback) ;;
     FlushSessionAcquireAndReleaseEvents flush) m = Done true submitted
    /\ (exists flushed,
          FlushSessionAcquireAndReleaseEvents flush m = Done true flushed
          /\ SignalWritesFinished body (Some callback) flushed =
             Done tt submitted)
    /\ pending_on_writes_committed_ (self submitted) = Some callback
    /\ age_ (self submitted) = 0
    /\ (forall status observed,
          failed status = true ->
          OnHandleReady body status observed reset submitted =
          Done tt submitted)
    /\ OnHandleReady body ZX_OK ZX_EVENT_SIGNALED reset submitted =
       body callback
         (mkMachine (self steps) (trace steps ++ [CallbackInvoked callback]))
    /\ pending_on_writes_committed_ (self steps) = None
    /\ age_ (self steps) = 0
    /\ sk_surface_ (self steps) = sk_surface_ (self m)
    /\ valid_ (self steps) =
       negb (failed (reset_acquire_signal reset)
             || failed (reset_release_signal reset))
    /\ invocations (trace steps) = invocations (trace m)
    /\ exists idle,
         OnHandleReady no_effect ZX_OK ZX_EVENT_SIGNALED reset submitted =
           Done tt idle
         /\ invocations (trace idle) = invocations (trace m) ++ [callback].
Proof.
  intros Hv Hp Hfa Hfr.
  pose proof (flush_runs flush m) as Hflush. cbv zeta in Hflush.
  rewrite Hfa, Hfr in Hflush.
  pose proof (signal_runs body callback m) as Hsignal.
  rewrite Hv, Hp in Hsignal.
  pose proof (flush_runs flush
                (mkMachine
                   (set_pending_on_writes_committed_ (Some callback) (self m))
                   (trace m))) as Hboth.
  cbv zeta in Hboth. rewrite Hfa, Hfr in Hboth. cbn [self trace] in Hboth.
  match type of Hboth with
  | _ = Done true ?s => set (submitted := s) in *
  end.
  destruct (Reset_runs reset submitted)
    as (events & semaphore & Hi & _ & _ & Hr).
  cbv zeta in Hr.
  destruct (Hr body) as [_ Hb]. destruct (Hr no_effect) as [_ Hn]. clear Hr.
  change (pending_on_writes_committed_ (self submitted))
    with (Some callback) in Hb, Hn.
  cbv beta iota in Hb, Hn.
  match type of Hb with
  | _ = body _ (mkMachine (self ?s) _) => set (steps := s) in *
  end.
  exists submitted, steps.
  split; [unfold bind; rewrite Hsignal; exact Hboth|].
  split.
  { eexists. split; [exact Hflush|]. rewrite signal_runs. cbn [self trace].
    change (valid_ (set_age_ 0 (self m))) with (valid_ (self m)).
    change (pending_on_writes_committed_ (set_age_ 0 (self m)))
      with (pending_on_writes_committed_ (self m)).
    rewrite Hv, Hp. reflexivity. }
  split; [reflexivity|]. split; [reflexivity|].
  split.
  { intros status observed Hs. unfold OnHandleReady. rewrite Hs.
    reflexivity. }
  split; [rewrite OnHandleReady_signalled; exact Hb|].
  split; [reflexivity|]. split.
  { subst steps. cbn.
    destruct (failed (reset_acquire_signal reset)
              || failed (reset_release_signal reset)); reflexivity. }
  split.
  { subst steps. cbn.
    destruct (failed (reset_acquire_signal reset)
              || failed (reset_release_signal reset)); reflexivity. }
  split.
  { subst steps. cbn.
    destruct (failed (reset_acquire_signal reset)
              || failed (reset_release_signal reset)); cbn;
      [reflexivity|exact Hv]. }
  assert (invocations (trace steps) = invocations (trace m)) as Hsame.
  { subst steps submitted. cbn [trace].
    rewrite !invocations_app, Hi. cbn. rewrite !app_nil_r. reflexivity. }
  split; [exact Hsame|].
  eexists. split; [rewrite OnHandleReady_signalled; exact Hn|].
  cbn [trace]. rewrite invocations_app, Hsame. reflexivity.
Qed.

(** ** Surfaces in use *)

Section InUse.

Variable k : Z.
Variable body : Callback -> M unit.
Hypothesis body_never_revives : never_revives body.
Hypothesis body_keeps_ids : keeps_ids body.

Lemma perform_never_revives (c : Call) (m after : Machine) :
  perform k body c m = Done tt after ->
  valid_ (self m) = false ->
  valid_ (self after) = false.
Proof.
  intros H Hv. destruct c; cbn [perform] in H.
  - unfold IsValid in H. run. inversion H; subst; exact Hv.
  - unfold bind in H. rewrite GetSize_runs, Hv in H.
    run. inversion H; subst; exact Hv.
  - unfold GetImageId in H. run. inversion H; subst; exact Hv.
  - unfold GetSkiaSurface in H. run. rewrite Hv in H.
    inversion H; subst; exact Hv.
  - unfold AdvanceAndGetAge in H. unfold bind at 1 2 in H.
    rewrite GetSize_runs, Hv in H. run.
    destruct ((size_history_index_ (self m) <? 0)
              || (k <=? size_history_index_ (self m)));
      cbn in H; inversion H; subst; cbn; exact Hv.
  - unfold bind in H. rewrite flush_runs in H. cbv zeta in H.
    destruct (failed (flush_acquire_status env));
      [|destruct (failed (flush_release_status env))];
      run; inversion H; subst; exact Hv.
  - destruct on_writes_committed as [callback|]; [|discriminate H].
    rewrite signal_runs, Hv in H.
    eapply body_never_revives; [exact H|exact Hv].
  - unfold OnHandleReady in H. destruct (failed status).
    + run. inversion H; subst; exact Hv.
    + unfold bind, FML_DCHECK in H.
      destruct (negb (Z.land observed ZX_EVENT_SIGNALED =? 0));
        [|discriminate H].
      unfold ret in H. cbv beta iota in H.
      destruct (Reset_runs env m) as (events & semaphore & _ & _ & _ & Hr).
      cbv zeta in Hr. destruct (Hr body) as [_ Hb]. rewrite Hb in H.
      clear Hr Hb.
      match type of H with
      | context [mkMachine ?members (_ ++ events)] =>
          assert (valid_ members = false) as Hsteps
      end.
      { cbn. destruct (failed (reset_acquire_signal env)
                       || failed (reset_release_signal env));
          [reflexivity|exact Hv]. }
      destruct (pending_on_writes_committed_ (self m)) as [callback|].
      * eapply body_never_revives; [exact H|exact Hsteps].
      * inversion H; subst. exact Hsteps.
Qed.

Lemma perform_all_never_revives (calls : list Call) (m after : Machine) :
  perform_all k body calls m = Done tt after ->
  valid_ (self m) = false ->
  valid_ (self after) = false.
Proof.
  revert m. induction calls as [|c calls IH]; intros m H Hv.
  - cbn in H. inversion H; subst. exact Hv.
  - cbn [perform_all] in H. apply bind_Done in H.
    destruct H as ([] & m1 & Hc & Hrest).
    apply (IH m1 Hrest). eapply perform_never_revives; eauto.
Qed.

Lemma Reset_keeps_ids (env : ResetEnv) (m after : Machine) :
  Reset body env m = Done tt after ->
  image_id_ (self after) = image_id_ (self m)
  /\ buffer_id_ (self after) = buffer_id_ (self m).
Proof.
  destruct (Reset_runs env m) as (events & semaphore & _ & _ & _ & Hr).
  cbv zeta in Hr. destruct (Hr body) as [_ Hb]. rewrite Hb. clear Hr Hb.
  match goal with
  | |- context [mkMachine ?members (_ ++ events)] =>
      assert (image_id_ members = image_id_ (self m)
              /\ buffer_id_ members = buffer_id_ (self m)) as [Hi Hb]
  end.
  { cbn. destruct (failed (reset_acquire_signal env)
                   || failed (reset_release_signal env)); split; reflexivity. }
  destruct (pending_on_writes_committed_ (self m)) as [callback|].
  - intros H. apply body_keeps_ids in H. cbn [self] in H.
    destruct H as [H1 H2]. rewrite H1, H2. split; assumption.
  - intros H. inversion H; subst. split; assumption.
Qed.

Lemma perform_keeps_ids (c : Call) (m after : Machine) :
  perform k body c m = Done tt after ->
  image_id_ (self after) = image_id_ (self m)
  /\ buffer_id_ (self after) = buffer_id_ (self m).
Proof.
  intros H. destruct c; cbn [perform] in H.
  - unfold IsValid in H. run. inversion H; subst; split; reflexivity.
  - unfold bind in H. rewrite GetSize_runs in H.
    destruct (valid_ (self m)); [destruct (sk_surface_ (self m)) eqn:E|];
      run; inversion H; subst; auto.
  - unfold GetImageId in H. run. inversion H; subst; split; reflexivity.
  - unfold GetSkiaSurface in H. run.
    destruct (valid_ (self m)); inversion H; subst; split; reflexivity.
  - unfold AdvanceAndGetAge in H. unfold bind at 1 2 in H.
    rewrite GetSize_runs in H.
    destruct (valid_ (self m)); [destruct (sk_surface_ (self m)) eqn:E|];
      try discriminate H; run;
      destruct ((size_history_index_ (self m) <? 0)
                || (k <=? size_history_index_ (self m)));
      cbn in H; inversion H; subst; cbn; auto.
  - unfold bind in H. rewrite flush_runs in H. cbv zeta in H.
    destruct (failed (flush_acquire_status env));
      [|destruct (failed (flush_release_status env))];
      run; inversion H; subst; split; reflexivity.
  - destruct on_writes_committed as [callback|]; [|discriminate H].
    rewrite signal_runs in H.
    destruct (valid_ (self m)).
    + destruct (pending_on_writes_committed_ (self m)); [discriminate H|].
      inversion H; subst; split; reflexivity.
    + apply body_keeps_ids in H. exact H.
  - unfold OnHandleReady in H. destruct (failed status).
    + run. inversion H; subst; split; reflexivity.
    + unfold bind, FML_DCHECK in H.
      destruct (negb (Z.land observed ZX_EVENT_SIGNALED =? 0));
        [|discriminate H].
      unfold ret in H. cbv beta iota in H.
      eapply Reset_keeps_ids; eauto.
Qed.

Lemma perform_all_keeps_ids (calls : list Call) (m after : Machine) :
  perform_all k body calls m = Done tt after ->
  image_id_ (self after) = image_id_ (self m)
  /\ buffer_id_ (self after) = buffer_id_ (self m).
Proof.
  revert m. induction calls as [|c calls IH]; intros m H.
  - cbn in H. inversion H; subst. split; reflexivity.
  - cbn [perform_all] in H. apply bind_Done in H.
    destruct H as ([] & m1 & Hc & Hrest).
    destruct (IH _ Hrest) as [H1 H2].
    destruct (perform_keeps_ids c m m1 Hc) as [H3 H4].
    split; congruence.
Qed.

End InUse.

(** X12. Validity is never regained. Through any calls of the methods and
    any deliveries of the release signal, with callbacks that (having no
    access to the flag) do not set it, a surface that is not valid stays
    not valid: it keeps reporting size zero by zero and no Skia surface. *)
Theorem once_invalid_always_invalid (k : Z) (body : Callback -> M unit)
    (calls : list Call) (m after : Machine) :
  never_revives body ->
  valid_ (self m) = false ->
  perform_all k body calls m = Done tt after ->
  valid_ (self after) = false
  /\ IsValid after = Done false after
  /\ GetSize after = Done (Make 0 0) after
  /\ GetSkiaSurface after = Done None after.
Proof.
  intros Hb Hv H.
  pose proof (perform_all_never_revives k body Hb calls m after H Hv) as Ha.
  split; [exact Ha|]. split; [unfold IsValid, read; rewrite Ha; reflexivity|].
  split; [rewrite GetSize_runs, Ha; reflexivity|].
  unfold GetSkiaSurface. run. rewrite Ha. reflexivity.
Qed.

(** X13. The undefined cases are out of reach. Whatever the constructor
    met, the surface it leaves, driven through any calls and deliveries
    (with callbacks that keep the ring bookkeeping, which they cannot
    reach), always has its ring index inside the size history and, while
    valid, its Skia surface. So [GetSize] and [AdvanceAndGetAge] return on
    it, and a method itself (callbacks set aside) can stop only at a debug
    check or at the double registration check, never on a null surface or
    an index out of range. *)
Theorem undefined_cases_are_out_of_reach (k : Z) (body : Callback -> M unit)
    (env : CtorEnv) (context : option GrDirectContext) (session : option Z)
    (size : SkISize) (buffer_id : Z) (before : list Event)
    (calls : list Call) (m : Machine) :
  0 < k ->
  keeps_consistent k body ->
  perform_all k body calls
    (final (new_VulkanSurface k body env context session size buffer_id
              before)) = Done tt m ->
  consistent k (self m) = true
  /\ (exists current, GetSize m = Done current m)
  /\ (exists after,
        AdvanceAndGetAge k m = Done (wrap64 (age_ (self m) + 1)) after)
  /\ forall c why stop,
       perform k no_effect c m = Fatal why stop ->
       why = DCheckFailed \/ why = DoubleRegistration.
Proof.
  intros Hk Hb H.
  pose proof (perform_all_keeps_consistent k body Hb calls _ m
                (new_is_consistent k body env context session size buffer_id
                   before Hk) H) as Hc.
  destruct (GetSize_consistent k m Hc) as [current Hs].
  destruct (advance_consistent k m Hc) as (after & Hrun & _).
  split; [exact Hc|]. split; [eauto|]. split; [eauto|].
  intros c why stop Hstop. destruct c; cbn [perform] in Hstop.
  - discriminate Hstop.
  - unfold bind in Hstop. rewrite Hs in Hstop. discriminate Hstop.
  - discriminate Hstop.
  - unfold GetSkiaSurface in Hstop. run.
    destruct (valid_ (self m)); discriminate Hstop.
  - unfold bind in Hstop. rewrite Hrun in Hstop. discriminate Hstop.
  - unfold bind in Hstop. rewrite flush_runs in Hstop. cbv zeta in Hstop.
    destruct (failed (flush_acquire_status env0));
      [|destruct (failed (flush_release_status env0))]; discriminate Hstop.
  - destruct on_writes_committed as [callback|].
    + rewrite signal_runs in Hstop. destruct (valid_ (self m)).
      * destruct (pending_on_writes_committed_ (self m));
          [|discriminate Hstop].
        inversion Hstop. right. reflexivity.
      * discriminate Hstop.
    + inversion Hstop. left. reflexivity.
  - unfold OnHandleReady in Hstop. destruct (failed status).
    + discriminate Hstop.
    + unfold bind, FML_DCHECK in Hstop.
      destruct (negb (Z.land observed ZX_EVENT_SIGNALED =? 0)).
      * unfold ret in Hstop. cbv beta iota in Hstop.
        destruct (Reset_runs env0 m)
          as (events & semaphore & _ & _ & _ & Hr).
        cbv zeta in Hr. destruct (Hr no_effect) as [_ Hn].
        rewrite Hn in Hstop.
        destruct (pending_on_writes_committed_ (self m));
          discriminate Hstop.
      * inversion Hstop. left. reflexivity.
Qed.

(** The ids of a surface that constructed valid. *)
Lemma new_valid_ids (k : Z) (body : Callback -> M unit) (env : CtorEnv)
    (context : option GrDirectContext) (session : option Z)
    (size : SkISize) (buffer_id : Z) (before : list Event)
    (ran : Outcome unit) :
  ran = new_VulkanSurface k body env context session size buffer_id before ->
  valid_ (self (final ran)) = true ->
  image_id_ (self (final ran)) = ctor_resource_id env
  /\ buffer_id_ (self (final ran)) = buffer_id
  /\ session_calls (trace (final ran)) =
     session_calls before
     ++ [SessionRegisterBufferCollection buffer_id;
         SessionAllocResourceId (ctor_resource_id env);
         SessionEnqueue
           (NewCreateImage2Cmd (ctor_resource_id env) (fWidth size)
              (fHeight size) buffer_id 0)].
Proof.
  unfold new_VulkanSurface, VulkanSurface_ctor, AllocateDeviceMemory,
    CreateVulkanImage, SetupSkiaSurface, CreateFences, SemaphoreFromEvent,
    PushSessionImageSetupOps, Reset, assign_acquire_semaphore,
    dispose_acquire_semaphore, invoke, initial_surface,
    MakeFromBackendRenderTarget.
  run. cbn. intros H.
  exec H.
  all: try match goal with
         | E : (0 =? 0) = false |- _ => cbv in E; discriminate E
         end.
  all: subst ran; cbn [final self trace valid_]; intros Hv;
    try discriminate Hv.
  all: split; [reflexivity|]. all: split; [reflexivity|].
  all: rewrite <- !app_assoc; cbn; rewrite session_calls_app; reflexivity.
Qed.

(** X14. The ids of a surface last its lifetime. A surface that
    constructed valid holds the resource id the session allocated and the
    buffer id it was given, and has told the session exactly three things:
    the registration of the collection, the allocation of the id and the
    creation of the image under both. No call of its methods and no
    delivery changes either id (callbacks cannot reach them), so
    [GetImageId] keeps returning the id of the image created, and the
    destructor releases that very resource and deregisters that very
    collection, each unless its id is zero. *)
Theorem destructor_releases_the_constructor_ids (k : Z)
    (body : Callback -> M unit) (env : CtorEnv)
    (context : option GrDirectContext) (session : option Z)
    (size : SkISize) (buffer_id : Z) (before : list Event)
    (calls : list Call) (used : Machine) :
  let built :=
    final (new_VulkanSurface k body env context session size buffer_id
             before) in
  keeps_ids body ->
  valid_ (self built) = true ->
  perform_all k body calls built = Done tt used ->
  session_calls (trace built) =
    session_calls before
    ++ [SessionRegisterBufferCollection buffer_id;
        SessionAllocResourceId (ctor_resource_id env);
        SessionEnqueue
          (NewCreateImage2Cmd (ctor_resource_id env) (fWidth size)
             (fHeight size) buffer_id 0)]
  /\ GetImageId used = Done (ctor_resource_id env) used
  /\ buffer_id_ (self used) = buffer_id
  /\ session_calls (trace (final (VulkanSurface_dtor used))) =
     session_calls (trace used)
     ++ (if ctor_resource_id env =? 0 then []
         else [SessionEnqueue (NewReleaseResourceCmd (ctor_resource_id env))])
     ++ (if buffer_id =? 0 then []
         else [SessionDeregisterBufferCollection buffer_id]).
Proof.
  intros built Hb Hv H.
  destruct (new_valid_ids k body env context session size buffer_id before
              _ eq_refl Hv) as (Hi & Hbuf & Hs).
  fold built in Hi, Hbuf, Hs.
  destruct (perform_all_keeps_ids k body Hb calls built used H) as [H1 H2].
  rewrite Hi in H1. rewrite Hbuf in H2.
  split; [exact Hs|].
  split; [unfold GetImageId, read; rewrite H1; reflexivity|].
  split; [exact H2|].
  rewrite dtor_runs. cbn [final trace]. rewrite H1, H2.
  rewrite !session_calls_app.
  destruct (ctor_resource_id env =? 0), (buffer_id =? 0); cbn;
    rewrite ?app_nil_r; reflexivity.
Qed.

(** X15. On a surface constructed valid for [size] and then in use,
    [GetSkiaSurface] returns, while the surface is valid, the Skia surface
    made at construction, with the requested dimensions and a canvas, and
    returns none once the surface is not valid, although the member still
    holds it. It changes nothing. *)
Theorem GetSkiaSurface_follows_validity (k : Z) (body : Callback -> M unit)
    (env : CtorEnv) (context : option GrDirectContext) (session : option Z)
    (size : SkISize) (buffer_id : Z) (before : list Event)
    (calls : list Call) (constructed m : Machine) :
  keeps_surface body ->
  new_VulkanSurface k body env context session size buffer_id before =
    Done tt constructed ->
  valid_ (self constructed) = true ->
  perform_all k body calls constructed = Done tt m ->
  sk_surface_ (self m) =
    Some (mkSkSurface (fWidth size) (fHeight size) true)
  /\ GetSkiaSurface m =
     Done (if valid_ (self m)
           then Some (mkSkSurface (fWidth size) (fHeight size) true)
           else None) m.
Proof.
  intros Hk Hnew Hv Hcalls.
  destruct (new_runs k body env context session size buffer_id before _
              eq_refl) as (events & _ & _ & _ & _ & Hvalid).
  rewrite Hnew in Hvalid. cbn [final] in Hvalid.
  destruct (Hvalid Hv) as (_ & Hsk).
  pose proof (perform_all_keeps_surface k body Hk calls constructed m
                Hcalls) as Hkeep.
  rewrite Hsk in Hkeep. split; [exact Hkeep|].
  unfold GetSkiaSurface. run.
  destruct (valid_ (self m)); [rewrite Hkeep|]; reflexivity.
Qed.

(** * The further properties at a concrete run *)

Lemma no_effect_never_revives : never_revives no_effect.
Proof.
  intros callback m after H Hv. unfold no_effect, ret in H.
  inversion H; subst; exact Hv.
Qed.

Lemma no_effect_keeps_ids : keeps_ids no_effect.
Proof.
  intros callback m after H. unfold no_effect, ret in H.
  inversion H; subst; split; reflexivity.
Qed.

Lemma sample_reentrant_keeps_consistent (k : Z) :
  keeps_consistent k (sample_reentrant k).
Proof.
  intros callback m after Hc H. unfold sample_reentrant in H.
  destruct (GetSize_consistent k m Hc) as [size Hs].
  destruct (advance_consistent k m Hc) as (next & Hrun & _ & Hnext).
  unfold bind in H. rewrite Hs, Hrun in H. unfold ret in H.
  inversion H; subst. exact Hnext.
Qed.

Lemma sample_allocated_runs :
  AllocateDeviceMemory sample_alloc_env (Some 1) sample_size 7 sample_start =
  Done true sample_allocated.
Proof. vm_compute. reflexivity. Qed.

Lemma sample_invalid_performs :
  perform_all 3 no_effect sample_calls sample_invalid =
  Done tt sample_invalid_used.
Proof. vm_compute. reflexivity. Qed.

Lemma sample_reentrant_performs :
  perform_all 3 (sample_reentrant 3) sample_calls
    (final (new_VulkanSurface 3 (sample_reentrant 3) sample_ctor_env
              (Some 1) (Some 1) sample_size 7 [])) =
  Done tt sample_reentrant_used.
Proof. vm_compute. reflexivity. Qed.

(** The callback of the sample run really ran inside [Reset]: the age it
    advanced is one, not the zero the flush left. *)
Example sample_reentrant_ages :
  age_ (self sample_reentrant_used) = 1
  /\ invocations (trace sample_reentrant_used) = [5%nat].
Proof. vm_compute. split; reflexivity. Qed.

Lemma image_follows_constraints_witness :
  isEmpty sample_size = false
  /\ fWidth sample_size < 2 ^ 32
  /\ fHeight sample_size < 2 ^ 32
  /\ exists image events,
       CreateVulkanImage sample_image_env sample_size sample_start =
         Done (true, image)
           (mkMachine (self sample_start) (trace sample_start ++ events))
       /\ ici_extent_width (vk_image_create_info image) = 640
       /\ ici_extent_height (vk_image_create_info image) = 480.
Proof.
  assert (isEmpty sample_size = false) as He by reflexivity.
  assert (fWidth sample_size < 2 ^ 32) as Hw by reflexivity.
  assert (fHeight sample_size < 2 ^ 32) as Hh by reflexivity.
  split; [exact He|]. split; [exact Hw|]. split; [exact Hh|].
  destruct (proj2 (image_follows_constraints sample_image_env sample_size
                     sample_start) He Hw Hh)
    as (image & events & Hrun & Hwidth & Hheight & _).
  exists image, events. split; [exact Hrun|]. split; assumption.
Defined.


Lemma lowest_common_memory_type_witness :
  0 <= 6 < 2 ^ 32
  /\ 0 <= 12 < 2 ^ 32
  /\ AllocateDeviceMemory sample_alloc_env (Some 1) sample_size 7
       sample_start = Done true sample_allocated
  /\ forall lower,
       0 <= lower < memoryTypeIndex (vk_memory_info_ (self sample_allocated)) ->
       Z.testbit 6 lower && Z.testbit 12 lower = false.
Proof.
  assert (0 <= 6 < 2 ^ 32) as H6 by lia.
  assert (0 <= 12 < 2 ^ 32) as H12 by lia.
  split; [exact H6|]. split; [exact H12|].
  split; [exact sample_allocated_runs|].
  exact (lowest_common_memory_type_is_chosen sample_alloc_env (Some 1)
           sample_size 7 sample_start sample_allocated H6 H12
           sample_allocated_runs).
Defined.

Lemma size_history_witness :
  consistent 3 (self sample_surface) = true
  /\ exists size after,
       GetSize sample_surface = Done size sample_surface
       /\ perform_all 3 no_effect (replicate 4 CallAdvanceAndGetAge)
            sample_surface = Done tt after
       /\ size_history_ (self after) = replicate (Z.to_nat 3) size.
Proof.
  split; [exact sample_consistent|].
  destruct (size_history_fills_after_a_full_turn 3 no_effect 4
              sample_surface sample_consistent)
    as (size & after & Hs & Hrun & _ & _ & _ & Hfull & _).
  exists size, after. split; [exact Hs|]. split; [exact Hrun|].
  apply Hfull. lia.
Defined.

Lemma frame_cycle_witness :
  valid_ (self sample_surface) = true
  /\ pending_on_writes_committed_ (self sample_surface) = None
  /\ failed (flush_acquire_status sample_flush_env) = false
  /\ failed (flush_release_status sample_flush_env) = false
  /\ exists submitted,
       (SignalWritesFinished no_effect (Some 5%nat) ;;
        FlushSessionAcquireAndReleaseEvents sample_flush_env) sample_surface =
         Done true submitted
       /\ pending_on_writes_committed_ (self submitted) = Some 5%nat
       /\ exists idle,
            OnHandleReady no_effect ZX_OK ZX_EVENT_SIGNALED sample_reset_env
              submitted = Done tt idle
            /\ invocations (trace idle) =
               invocations (trace sample_surface) ++ [5%nat].
Proof.
  split; [exact sample_valid|]. split; [exact sample_idle|].
  split; [reflexivity|]. split; [reflexivity|].
  destruct (frame_cycle_calls_back_once no_effect sample_surface 5%nat
              sample_flush_env sample_reset_env sample_valid sample_idle
              eq_refl eq_refl)
    as (submitted & steps & H1 & _ & H3 & _ & _ & _ & _ & _ & _ & _ & _ & H12).
  exists submitted. split; [exact H1|]. split; [exact H3|exact H12].
Defined.

Lemma once_invalid_witness :
  never_revives no_effect
  /\ valid_ (self sample_invalid) = false
  /\ perform_all 3 no_effect sample_calls sample_invalid =
     Done tt sample_invalid_used
  /\ valid_ (self sample_invalid_used) = false
  /\ GetSize sample_invalid_used = Done (Make 0 0) sample_invalid_used.
Proof.
  split; [exact no_effect_never_revives|].
  split; [exact sample_invalid_flag|].
  split; [exact sample_invalid_performs|].
  destruct (once_invalid_always_invalid 3 no_effect sample_calls
              sample_invalid sample_invalid_used no_effect_never_revives
              sample_invalid_flag sample_invalid_performs)
    as (H1 & _ & H3 & _).
  split; [exact H1|exact H3].
Defined.

Lemma undefined_cases_witness :
  0 < 3
  /\ keeps_consistent 3 (sample_reentrant 3)
  /\ perform_all 3 (sample_reentrant 3) sample_calls
       (final (new_VulkanSurface 3 (sample_reentrant 3) sample_ctor_env
                 (Some 1) (Some 1) sample_size 7 [])) =
     Done tt sample_reentrant_used
  /\ consistent 3 (self sample_reentrant_used) = true
  /\ exists current,
       GetSize sample_reentrant_used = Done current sample_reentrant_used.
Proof.
  assert (0 < 3) as H3 by lia.
  split; [exact H3|].
  split; [exact (sample_reentrant_keeps_consistent 3)|].
  split; [exact sample_reentrant_performs|].
  destruct (undefined_cases_are_out_of_reach 3 (sample_reentrant 3)
              sample_ctor_env (Some 1) (Some 1) sample_size 7 []
              sample_calls sample_reentrant_used H3
              (sample_reentrant_keeps_consistent 3)
              sample_reentrant_performs)
    as (Hc & Hs & _).
  split; [exact Hc|exact Hs].
Defined.

Lemma sample_built_valid :
  valid_ (self (final (new_VulkanSurface 3 no_effect sample_ctor_env
                         (Some 1) (Some 1) sample_size 7 []))) = true.
Proof. vm_compute. reflexivity. Qed.

Lemma sample_built_performs :
  perform_all 3 no_effect sample_calls
    (final (new_VulkanSurface 3 no_effect sample_ctor_env (Some 1) (Some 1)
              sample_size 7 [])) =
  Done tt sample_used.
Proof. vm_compute. reflexivity. Qed.

Lemma constructor_ids_witness :
  keeps_ids no_effect
  /\ valid_ (self (final (new_VulkanSurface 3 no_effect sample_ctor_env
                            (Some 1) (Some 1) sample_size 7 []))) = true
  /\ perform_all 3 no_effect sample_calls
       (final (new_VulkanSurface 3 no_effect sample_ctor_env (Some 1)
                 (Some 1) sample_size 7 [])) = Done tt sample_used
  /\ GetImageId sample_used = Done 1 sample_used
  /\ buffer_id_ (self sample_used) = 7.
Proof.
  split; [exact no_effect_keeps_ids|]. split; [exact sample_built_valid|].
  split; [exact sample_built_performs|].
  destruct (destructor_releases_the_constructor_ids 3 no_effect
              sample_ctor_env (Some 1) (Some 1) sample_size 7 []
              sample_calls sample_used no_effect_keeps_ids
              sample_built_valid sample_built_performs)
    as (_ & Hi & Hb & _).
  split; [exact Hi|exact Hb].
Defined.

Lemma GetSkiaSurface_witness :
  keeps_surface no_effect
  /\ new_VulkanSurface 3 no_effect sample_ctor_env (Some 1) (Some 1)
       sample_size 7 [] = Done tt sample_surface
  /\ valid_ (self sample_surface) = true
  /\ perform_all 3 no_effect sample_calls sample_surface = Done tt sample_used
  /\ sk_surface_ (self sample_used) = Some (mkSkSurface 640 480 true).
Proof.
  split; [exact no_effect_keeps_surface|].
  split; [exact sample_constructs|]. split; [exact sample_valid|].
  split; [exact sample_performs|].
  exact (proj1 (GetSkiaSurface_follows_validity 3 no_effect sample_ctor_env
                  (Some 1) (Some 1) sample_size 7 [] sample_calls
                  sample_surface sample_used no_effect_keeps_surface
                  sample_constructs sample_valid sample_performs)).
Defined.
